(** * PPT_Maker: the document assembly engine of [step3_pptx_new.py]

    A shallow embedding of [PPTXGenerator] (text-box run formatting, table
    rendering, the three slide builders and [generate]) and of
    [get_unique_output_filename] / [run_step3] from
    [generate_ppt_from_pdf.py], followed by the properties of the
    specification that concern them.

    Conventions of the embedding.
    - A Python [str] is a [string] whose characters are the code points
      U+0000..U+00FF; the character classes below are Python's on that
      range.  Text outside Latin-1 is outside the model.
    - A [dict] read with [.get] is a record of [option] fields: [None] is a
      missing key, [Some v] a value of the expected type.  A key that holds
      a JSON null or a value of another type is outside the model, except
      in table cells, where null is [None].
    - Lengths (EMU values computed in floating point from the Canva
      calibration constants) are not modelled; the only geometric fact kept
      is whether the text box has its full height or the height reduced to
      make room for a table.
    - Every run carries the same font name and the colour black; both are
      left out of [Run]. *)

From Stdlib Require Import Ascii String.
From stdpp Require Import base list strings gmap pretty.

Local Open Scope nat_scope.

(** ** Python string operations *)

Module Py.

Definition code (c : ascii) : nat := nat_of_ascii c.

Definition between (lo hi : nat) (c : ascii) : bool :=
  (lo <=? code c) && (code c <=? hi).

(** [str.isspace] on one character. *)
Definition isspace (c : ascii) : bool :=
  between 9 13 c || between 28 32 c || (code c =? 133) || (code c =? 160).

(** [str.isdigit] on one character (the superscripts two, three and one
    count as digits for Python). *)
Definition isdigit_char (c : ascii) : bool :=
  between 48 57 c || (code c =? 178) || (code c =? 179) || (code c =? 185).

(** [str.isalpha] on one character. *)
Definition isalpha_char (c : ascii) : bool :=
  between 65 90 c || between 97 122 c
  || (code c =? 170) || (code c =? 181) || (code c =? 186)
  || between 192 214 c || between 216 246 c || between 248 255 c.

(** [str.lower] on one character. *)
Definition lower_char (c : ascii) : ascii :=
  if between 65 90 c || between 192 214 c || between 216 222 c
  then ascii_of_nat (code c + 32) else c.

Fixpoint all_chars (p : ascii → bool) (s : string) : bool :=
  match s with
  | EmptyString => true
  | String c s' => p c && all_chars p s'
  end.

Definition nonempty (s : string) : bool :=
  match s with EmptyString => false | String _ _ => true end.

(** [s.isdigit()] and [s.isalpha()]: false on the empty string. *)
Definition isdigit (s : string) : bool := nonempty s && all_chars isdigit_char s.
Definition isalpha (s : string) : bool := nonempty s && all_chars isalpha_char s.

Fixpoint lower (s : string) : string :=
  match s with
  | EmptyString => EmptyString
  | String c s' => String (lower_char c) (lower s')
  end.

(** [s.lstrip()], [s.rstrip()], [s.strip()]. *)
Fixpoint lstrip (s : string) : string :=
  match s with
  | EmptyString => EmptyString
  | String c s' => if isspace c then lstrip s' else s
  end.

Fixpoint rstrip (s : string) : string :=
  match s with
  | EmptyString => EmptyString
  | String c s' =>
      match rstrip s' with
      | EmptyString => if isspace c then EmptyString else String c EmptyString
      | t => String c t
      end
  end.

Definition strip (s : string) : string := rstrip (lstrip s).

(** [s.lstrip(ch)] for a one-character argument. *)
Fixpoint lstrip_char (ch : ascii) (s : string) : string :=
  match s with
  | EmptyString => EmptyString
  | String c s' => if Ascii.eqb c ch then lstrip_char ch s' else s
  end.

Definition len (s : string) : nat := String.length s.

(** [s.startswith(p)]. *)
Fixpoint startswith (s p : string) {struct p} : bool :=
  match p, s with
  | EmptyString, _ => true
  | String a p', String b s' => Ascii.eqb a b && startswith s' p'
  | String _ _, EmptyString => false
  end.

(** [s[lo:hi]], [s[lo:]] and [s[:hi]] for non-negative bounds; Python
    clips a slice to the string. *)
Definition slice (s : string) (lo hi : nat) : string :=
  String.substring lo (hi - lo) s.
Definition slice_from (s : string) (lo : nat) : string :=
  String.substring lo (len s - lo) s.
Definition slice_to (s : string) (hi : nat) : string :=
  String.substring 0 hi s.

Definition endswith (s p : string) : bool :=
  (len p <=? len s) && String.eqb (slice_from s (len s - len p)) p.

(** [s.split(sep)] for a one-character separator. *)
Fixpoint split (sep : ascii) (s : string) : list string :=
  match s with
  | EmptyString => [EmptyString]
  | String c s' =>
      if Ascii.eqb c sep then EmptyString :: split sep s'
      else match split sep s' with
           | l :: ls => String c l :: ls
           | [] => [String c EmptyString]
           end
  end.

(** [sep.join(parts)]. *)
Definition join (sep : string) (parts : list string) : string :=
  String.concat sep parts.

(** Number of occurrences of a character, [s.count(ch)]. *)
Fixpoint count (ch : ascii) (s : string) : nat :=
  match s with
  | EmptyString => 0
  | String c s' => (if Ascii.eqb c ch then 1 else 0) + count ch s'
  end.

Definition newline : ascii := "010"%char.
Definition nl : string := String newline EmptyString.

End Py.

(** ** Faults

    The two exceptions the engine's own subscripts can raise. *)

Inductive PyError : Type :=
| KeyError (key : string)
| IndexError.

Inductive result (A : Type) : Type :=
| Ok (a : A)
| Raise (e : PyError).
Arguments Ok {A} a.
Arguments Raise {A} e.

Global Instance result_ret : MRet result := λ A a, Ok a.
Global Instance result_bind : MBind result := λ A B f m,
  match m with
  | Ok a => f a
  | Raise e => Raise e
  end.

(** [l[i]] for [0 <= i]. *)
Definition subscript {A} (l : list A) (i : nat) : result A :=
  match l !! i with
  | Some x => Ok x
  | None => Raise IndexError
  end.

(** [d[key]] where [d.get(key)] is the field [field]. *)
Definition item {A} (key : string) (field : option A) : result A :=
  match field with
  | Some x => Ok x
  | None => Raise (KeyError key)
  end.

(** [d.get(key, default)]. *)
Definition get {A} (field : option A) (default : A) : A :=
  match field with
  | Some x => x
  | None => default
  end.

(** ** Input records (the parsed-questions JSON) *)

(** A table cell or header: a JSON null ([None]) or a scalar, held as the
    text [str] gives for it, which is all the engine reads of a cell.  (A
    header that is the number zero or [false], shown as the empty string
    by [add_table], is outside the model.) *)
Abbreviation CellValue := (option string).

(** [str(v)]. *)
Definition str (v : CellValue) : string :=
  match v with
  | Some s => s
  | None => "None"
  end.

Record TableData : Type := {
  headers : option (list CellValue);
  rows : option (list (list CellValue));
}.

Record Content : Type := {
  question_text : option string;
  options : option (list string);
  table : option TableData;
  diagram_description : option string;
  passage : option string;
  answer_text : option string;
}.

Record SlideSpec : Type := {
  slide_type : option string;
  content : option Content;
}.

Record QuestionRecord : Type := {
  question_number : option string;
  slides : option (list SlideSpec);
}.

(** The empty dict [{}]. *)
Definition empty_content : Content :=
  {| question_text := None; options := None; table := None;
     diagram_description := None; passage := None; answer_text := None |}.

(** Truth value of a dict holding table data: false when it has no key. *)
Definition table_truthy (t : TableData) : bool :=
  match headers t, rows t with
  | None, None => false
  | _, _ => true
  end.

(** Truth value of a list and of a string. *)
Definition truthy {A} (l : list A) : bool :=
  match l with [] => false | _ :: _ => true end.

(** ** The presentation being built *)

Inductive PP_ALIGN : Type := LEFT | CENTER.

Record Run : Type := {
  run_text : string;
  run_size : nat;               (* points *)
  run_bold : option bool;       (* [None]: weight not set *)
}.

Record Paragraph : Type := {
  alignment : option PP_ALIGN;
  space_after : option nat;     (* points *)
  space_before : option nat;
  runs : list Run;
}.

(** A text frame is its list of paragraphs; after [clear()] it holds one
    empty paragraph. *)
Abbreviation TextFrame := (list Paragraph).

Definition new_paragraph : Paragraph :=
  {| alignment := None; space_after := None; space_before := None; runs := [] |}.

Definition cleared : TextFrame := [new_paragraph].

Record Cell : Type := {
  cell_alignment : option PP_ALIGN;
  cell_runs : list Run;
  cell_fill : option (nat * nat * nat);
}.

Definition new_cell : Cell :=
  {| cell_alignment := None; cell_runs := []; cell_fill := None |}.

(** A table is its rows of cells. *)
Abbreviation Table := (list (list Cell)).

Inductive Height : Type :=
| CONTENT_HEIGHT
| TEXTBOX_HEIGHT
| TEXTBOX_HEIGHT_LESS_TABLE.      (* TEXTBOX_HEIGHT - Inches(1.0) *)

Inductive Shape : Type :=
| TextBox (height : Height) (text_frame : TextFrame)
| GraphicFrame (tbl : Table).

Abbreviation Slide := (list Shape).

Record PPTXGenerator : Type := {
  prs : list Slide;
  answer_counter : nat;
}.

Definition FONT_SIZE_UNIFIED : nat := 25.
Definition FONT_SIZE_QUESTION : nat := FONT_SIZE_UNIFIED.
Definition FONT_SIZE_ANSWER : nat := FONT_SIZE_UNIFIED.
Definition FONT_SIZE_PASSAGE : nat := FONT_SIZE_UNIFIED.
Definition FONT_SIZE_TABLE : nat := 18.

(** [__init__]. *)
Definition init : PPTXGenerator := {| prs := []; answer_counter := 1 |}.

(** [create_blank_slide]: the new slide is appended to the presentation and
    handed back as a handle (its position), since the builders go on to
    change it in place. *)
Definition create_blank_slide (g : PPTXGenerator) : PPTXGenerator * nat :=
  ({| prs := prs g ++ [[]]; answer_counter := answer_counter g |}, length (prs g)).

(** [slide.shapes] gains one shape. *)
Definition add_shape (slide : nat) (sh : Shape) (g : PPTXGenerator) : PPTXGenerator :=
  {| prs := alter (λ shapes, shapes ++ [sh]) slide (prs g);
     answer_counter := answer_counter g |}.

(** ** [add_text_box] *)

Section RunFormatter.

Import Py.

(** [font_size or self.FONT_SIZE_QUESTION]: a missing size and [Pt(0)]
    both fall back to the default. *)
Definition size_or_default (font_size : option nat) : nat :=
  match font_size with
  | Some (S n) => S n
  | _ => FONT_SIZE_QUESTION
  end.

(** [s[i].isdigit()]. *)
Definition digit_at (s : string) (i : nat) : bool :=
  match String.get i s with
  | Some c => isdigit_char c
  | None => false
  end.

(** The loop
    [while num_end < len(line_stripped) and line_stripped[num_end].isdigit():
       num_end += 1].
    It runs at most [len(line_stripped)] times, which is the fuel
    [number_end] gives it. *)
Fixpoint scan_digits (fuel : nat) (line_stripped : string) (num_end : nat) : nat :=
  match fuel with
  | 0 => num_end
  | S fuel' =>
      if (num_end <? len line_stripped) && digit_at line_stripped num_end
      then scan_digits fuel' line_stripped (S num_end)
      else num_end
  end.

Definition number_end (line_stripped : string) (start : nat) : nat :=
  scan_digits (len line_stripped) line_stripped start.

Definition is_numbered (line_stripped : string) : bool :=
  (startswith line_stripped "Q" && (1 <? len line_stripped)
     && isdigit (slice line_stripped 1 2))
  || (startswith line_stripped "Ans" && (3 <? len line_stripped)
     && isdigit (slice line_stripped 3 4)).

(** The label and the rest of a numbered line. *)
Definition number_part_and_rest (line_stripped : string) : string * string :=
  let num_end :=
    if startswith line_stripped "Q" then number_end line_stripped 1
    else number_end line_stripped 3 in
  (slice_to line_stripped num_end, strip (slice_from line_stripped num_end)).

(** The separator and the text after it. *)
Definition separator_and_text (rest : string) : string * string :=
  if startswith rest "." then
    let text_part := strip (lstrip (lstrip_char "." rest)) in
    (if nonempty text_part then ". " else ".", text_part)
  else if startswith rest " " then (". ", lstrip rest)
  else (". ", rest).

(** The runs one line adds to its paragraph. *)
Definition line_runs (line : string) (font_size : option nat) (bold : bool) : list Run :=
  let line_stripped := strip line in
  if is_numbered line_stripped then
    let '(number_part, rest) := number_part_and_rest line_stripped in
    let '(separator, text_part) := separator_and_text rest in
    let run1 := {| run_text := number_part +:+ separator;
                   run_size := size_or_default font_size;
                   run_bold := Some true |} in
    if nonempty text_part then
      [run1; {| run_text := text_part;
                run_size := size_or_default font_size;
                run_bold := Some bold |}]
    else [run1]
  else
    [{| run_text := if nonempty (strip line) then line else " ";
        run_size := size_or_default font_size;
        run_bold := Some bold |}].

(** What one iteration does to the paragraph it works on. *)
Definition format_paragraph (n_lines i : nat) (line : string)
    (font_size : option nat) (bold : bool) (align : PP_ALIGN) (p : Paragraph) : Paragraph :=
  {| alignment := Some align;
     space_after := Some (if i <? n_lines - 1 then 8 else 0);
     space_before := Some 0;
     runs := runs p ++ line_runs line font_size bold |}.

(** One iteration of [for i, line in enumerate(lines)]: the first line
    uses [paragraphs[0]], every later one a paragraph it appends. *)
Definition format_line (n_lines i : nat) (line : string)
    (font_size : option nat) (bold : bool) (align : PP_ALIGN) (frame : TextFrame) : TextFrame :=
  let '(frame, paragraph) :=
    if 0 <? i then (frame ++ [new_paragraph], length frame) else (frame, 0) in
  alter (format_paragraph n_lines i line font_size bold align) paragraph frame.

Fixpoint format_lines (n_lines i : nat) (lines : list string)
    (font_size : option nat) (bold : bool) (align : PP_ALIGN) (frame : TextFrame) : TextFrame :=
  match lines with
  | [] => frame
  | line :: lines' =>
      format_lines n_lines (S i) lines' font_size bold align
        (format_line n_lines i line font_size bold align frame)
  end.

(** The text frame [add_text_box] fills and returns. *)
Definition text_box_frame (text : string) (font_size : option nat) (bold : bool)
    (align : PP_ALIGN) : TextFrame :=
  let lines := split newline text in
  format_lines (length lines) 0 lines font_size bold align cleared.

Definition add_text_box (slide : nat) (text : string) (height : option Height)
    (font_size : option nat) (bold : bool) (align : PP_ALIGN)
    (g : PPTXGenerator) : PPTXGenerator * TextFrame :=
  let height := get height CONTENT_HEIGHT in
  let text_frame := text_box_frame text font_size bold align in
  (add_shape slide (TextBox height text_frame) g, text_frame).

End RunFormatter.

(** ** [add_table] *)

Section TableRenderer.

(** [table.rows[r].cells[c]] changed in place by [f]. *)
Definition write_cell (r c : nat) (f : Cell → Cell) (t : Table) : result Table :=
  row ← subscript t r;
  cell ← subscript row c;
  Ok (<[r := <[c := f cell]> row]> t).

Definition table_run (text : string) (bold : option bool) : Run :=
  {| run_text := text; run_size := FONT_SIZE_TABLE; run_bold := bold |}.

(** [cell.text_frame.clear()], centred paragraph, one bold run with
    [str(header_text) if header_text else ""], grey fill. *)
Definition header_cell (header_text : CellValue) (_ : Cell) : Cell :=
  {| cell_alignment := Some CENTER;
     cell_runs := [table_run (if Py.nonempty (get header_text "")
                              then str header_text else "") (Some true)];
     cell_fill := Some (240, 240, 240) |}.

(** [cell.text_frame.clear()], centred paragraph, one run with
    [str(cell_text) if cell_text is not None else ""]; weight and fill
    are not touched. *)
Definition data_cell (cell_text : CellValue) (old : Cell) : Cell :=
  {| cell_alignment := Some CENTER;
     cell_runs := [table_run (match cell_text with
                              | Some _ => str cell_text
                              | None => ""
                              end) None];
     cell_fill := cell_fill old |}.

(** [for col_idx, header_text in enumerate(headers)] on row 0. *)
Fixpoint fill_header (col_idx : nat) (headers : list CellValue) (t : Table) : result Table :=
  match headers with
  | [] => Ok t
  | header_text :: headers' =>
      t ← write_cell 0 col_idx (header_cell header_text) t;
      fill_header (S col_idx) headers' t
  end.

(** [for col_idx, cell_text in enumerate(row_data): if col_idx < num_cols]. *)
Fixpoint fill_row (num_cols row_idx col_idx : nat) (row_data : list CellValue)
    (t : Table) : result Table :=
  match row_data with
  | [] => Ok t
  | cell_text :: row_data' =>
      t ← (if col_idx <? num_cols
           then write_cell row_idx col_idx (data_cell cell_text) t
           else Ok t);
      fill_row num_cols row_idx (S col_idx) row_data' t
  end.

(** [for row_idx, row_data in enumerate(rows, 1)]. *)
Fixpoint fill_rows (num_cols row_idx : nat) (rows : list (list CellValue))
    (t : Table) : result Table :=
  match rows with
  | [] => Ok t
  | row_data :: rows' =>
      _ ← subscript t row_idx;
      t ← fill_row num_cols row_idx 0 row_data t;
      fill_rows num_cols (S row_idx) rows' t
  end.

(** [not table_data.get('headers')]. *)
Definition no_headers (td : TableData) : bool :=
  negb (truthy (get (headers td) [])).

(** The grid is filled after [slide.shapes.add_table] has put it on the
    slide; as no subscript below can fail once ['rows'] is read (see
    [add_table_rendered]), the shape is added here with its final
    content. *)
Definition add_table (slide : nat) (table_data : option TableData)
    (g : PPTXGenerator) : result (PPTXGenerator * option Table) :=
  match table_data with
  | None => Ok (g, None)
  | Some td =>
      if negb (table_truthy td) || no_headers td then Ok (g, None)
      else
        headers ← item "headers" (headers td);
        rows ← item "rows" (rows td);
        let num_cols := length headers in
        let num_rows := length rows + 1 in
        let t : Table := replicate num_rows (replicate num_cols new_cell) in
        _ ← subscript t 0;
        t ← fill_header 0 headers t;
        t ← fill_rows num_cols 1 rows t;
        Ok (add_shape slide (GraphicFrame t) g, Some t)
  end.

End TableRenderer.

(** ** Slide builders *)

Section SlideBuilders.

Import Py.

(** The test on one row inside [for i, row in enumerate(table_rows)]:
    the new value of [matches]. *)
Definition match_row (options : list string) (i : nat) (row : list CellValue)
    (matches : nat) : result nat :=
  match row with
  | [] => Ok matches
  | row0 :: _ =>
      let first_cell := strip (str row0) in
      if startswith first_cell "(" && (3 <=? len first_cell)
         && isalpha (slice first_cell 1 2) && endswith first_cell ")"
      then
        option_i ← subscript options i;
        let option_label :=
          if 3 <=? len option_i then slice_to (strip option_i) 3 else "" in
        Ok (if String.eqb (lower first_cell) (lower option_label)
            then matches + 1 else matches)
      else Ok matches
  end.

Fixpoint count_matches (options : list string) (i : nat)
    (table_rows : list (list CellValue)) (matches : nat) : result nat :=
  match table_rows with
  | [] => Ok matches
  | row :: table_rows' =>
      matches ← match_row options i row matches;
      count_matches options (S i) table_rows' matches
  end.

(** [has_table = table and table.get('headers')], as a truth value. *)
Definition has_table (table : option TableData) : bool :=
  match table with
  | None => false
  | Some td => table_truthy td && truthy (get (headers td) [])
  end.

(** [is_options_table].  The threshold [matches >= len(options) * 0.75]
    is the integer comparison [3 * len(options) <= 4 * matches]. *)
Definition is_options_table (table : option TableData) (options : list string) : result bool :=
  if has_table table && truthy options then
    let table_rows := get (td ← table; rows td) [] in
    if truthy table_rows && (length table_rows =? length options) then
      matches ← count_matches options 0 table_rows 0;
      Ok (3 * length options <=? 4 * matches)
    else Ok false
  else Ok false.

(** The text block of a question slide. *)
Definition full_question (question_data : Content) (question_number : string) : string :=
  let question_text := get (question_text question_data) "" in
  let full_text_parts := [question_number +:+ ". " +:+ question_text] in
  let options := get (options question_data) [] in
  let full_text_parts :=
    if truthy options then full_text_parts ++ [join nl options] else full_text_parts in
  let full_text_parts :=
    if nonempty (get (diagram_description question_data) "")
    then full_text_parts ++ [nl +:+ "[Diagram]"] else full_text_parts in
  join (nl +:+ nl) full_text_parts.

Definition create_question_slide (question_data : Content) (question_number : string)
    (g : PPTXGenerator) : result PPTXGenerator :=
  let '(g, slide) := create_blank_slide g in
  let full_question := full_question question_data question_number in
  let options := get (options question_data) [] in
  let table := table question_data in
  is_options ← is_options_table table options;
  let show_table := has_table table && negb is_options in
  let text_height := if show_table then TEXTBOX_HEIGHT_LESS_TABLE else TEXTBOX_HEIGHT in
  let '(g, _) := add_text_box slide full_question (Some text_height)
                   (Some FONT_SIZE_QUESTION) false LEFT g in
  if show_table then
    '(g, _) ← add_table slide table g;
    Ok g
  else Ok g.

Definition create_answer_slide (answer_text : string) (g : PPTXGenerator) : PPTXGenerator :=
  let '(g, slide) := create_blank_slide g in
  let answer_number := "Ans" +:+ pretty (answer_counter g) in
  let g := {| prs := prs g; answer_counter := answer_counter g + 1 |} in
  let full_answer := answer_number +:+ ". " +:+ answer_text in
  fst (add_text_box slide full_answer (Some TEXTBOX_HEIGHT)
         (Some FONT_SIZE_ANSWER) false LEFT g).

Definition create_passage_slide (passage_text : string) (g : PPTXGenerator) : PPTXGenerator :=
  let '(g, slide) := create_blank_slide g in
  fst (add_text_box slide passage_text (Some TEXTBOX_HEIGHT)
         (Some FONT_SIZE_PASSAGE) false LEFT g).

End SlideBuilders.

(** ** [generate] and the output file *)

(** A file of the output folder: a saved presentation or anything else. *)
Inductive File : Type :=
| Pptx (saved : list Slide)
| Other (data : string).

Section Assembler.

(** The body of [for slide_data in slides]. *)
Definition process_slide (include_answers : bool) (question_number : string)
    (slide_data : SlideSpec) (g : PPTXGenerator) : result PPTXGenerator :=
  let slide_type := slide_type slide_data in
  let content := get (content slide_data) empty_content in
  if decide (slide_type = Some "passage") then
    Ok (create_passage_slide (get (passage content) "") g)
  else if decide (slide_type = Some "question") then
    create_question_slide content question_number g
  else if decide (slide_type = Some "answer") then
    if include_answers
    then Ok (create_answer_slide (get (answer_text content) "") g)
    else Ok g
  else Ok g.

Fixpoint process_slides (include_answers : bool) (question_number : string)
    (slides : list SlideSpec) (g : PPTXGenerator) : result PPTXGenerator :=
  match slides with
  | [] => Ok g
  | slide_data :: slides' =>
      g ← process_slide include_answers question_number slide_data g;
      process_slides include_answers question_number slides' g
  end.

(** The body of [for q in questions]. *)
Definition process_question (include_answers : bool) (q : QuestionRecord)
    (g : PPTXGenerator) : result PPTXGenerator :=
  process_slides include_answers (get (question_number q) "Q?") (get (slides q) []) g.

Fixpoint process_questions (include_answers : bool) (questions : list QuestionRecord)
    (g : PPTXGenerator) : result PPTXGenerator :=
  match questions with
  | [] => Ok g
  | q :: questions' =>
      g ← process_question include_answers q g;
      process_questions include_answers questions' g
  end.

(** [generate]: build every slide, then [self.prs.save(output_file)]
    writes the whole presentation to [output_file], whatever was there. *)
Definition generate (questions : list QuestionRecord) (output_file : string)
    (include_answers : bool) (g : PPTXGenerator) (fs : gmap string File)
    : result (PPTXGenerator * gmap string File) :=
  g ← process_questions include_answers questions g;
  Ok (g, <[output_file := Pptx (prs g)]> fs).

End Assembler.

(** ** [get_unique_output_filename] and [run_step3] *)

Section OutputFile.

(** [str(Path(folder) / name)]. *)
Definition path_join (folder name : string) : string := folder +:+ "/" +:+ name.

(** [Path(p).exists()]. *)
Definition path_exists (fs : gmap string File) (p : string) : bool :=
  bool_decide (is_Some (fs !! p)).

(** [folder_path / f"{base_name}_{counter}.pptx"]. *)
Definition numbered_path (folder base_name : string) (counter : nat) : string :=
  path_join folder (base_name +:+ "_" +:+ pretty counter +:+ ".pptx").

(** The loop [while True: ... counter += 1], given [fuel] iterations;
    [None] when they do not suffice. *)
Fixpoint first_free (fuel : nat) (fs : gmap string File) (folder base_name : string)
    (counter : nat) : option string :=
  match fuel with
  | 0 => None
  | S fuel' =>
      let output_file := numbered_path folder base_name counter in
      if negb (path_exists fs output_file) then Some output_file
      else first_free fuel' fs folder base_name (S counter)
  end.

(** The loop stops within [size fs + 1] iterations (see
    [get_unique_output_filename_total]). *)
Definition get_unique_output_filename (fs : gmap string File)
    (base_name folder : string) : option string :=
  let output_file := path_join folder (base_name +:+ ".pptx") in
  if negb (path_exists fs output_file) then Some output_file
  else first_free (S (size fs)) fs folder base_name 1.

(** [run_step3] from the loaded questions on: nothing is generated for
    an empty list ([Ok None]); otherwise the presentation of a new
    generator is saved at the unique name, which is returned. *)
Definition run_step3 (questions : list QuestionRecord) (pdf_name : string)
    (include_answers : bool) (fs : gmap string File)
    : option (result (option string * gmap string File)) :=
  if negb (truthy questions) then Some (Ok (None, fs))
  else
    output_file ← get_unique_output_filename fs pdf_name "PPTs";
    Some ('(_, fs) ← generate questions output_file include_answers init fs;
          Ok (Some output_file, fs)).

End OutputFile.


(** * Vocabulary of the properties *)

(** The two kinds of run of a text box: the bold label run and a run at the
    weight the caller asked for. *)
Definition label_run (text : string) (font_size : option nat) : Run :=
  {| run_text := text; run_size := size_or_default font_size; run_bold := Some true |}.

Definition body_run (text : string) (font_size : option nat) (bold : bool) : Run :=
  {| run_text := text; run_size := size_or_default font_size; run_bold := Some bold |}.

(** What is left of the line after its label, once whitespace around it
    and periods in front of it are removed. *)
Definition remaining_text (r : string) : string :=
  let rest := Py.strip r in
  if Py.startswith rest "." then Py.strip (Py.lstrip_char "." rest) else rest.

(** The remainder is a period (or several) followed by nothing. *)
Definition only_periods (r : string) : bool :=
  Py.startswith (Py.strip r) "." && negb (Py.nonempty (remaining_text r)).

(** [values] written over the first cells of [cells], value by value, for
    as long as both last. *)
Fixpoint overlay (f : CellValue → Cell → Cell) (values : list CellValue)
    (cells : list Cell) : list Cell :=
  match values, cells with
  | v :: values', cell :: cells' => f v cell :: overlay f values' cells'
  | _, _ => cells
  end.

(** A table row as it should come out for [row_data] under [num_cols]
    headers: the first [num_cols] values in their cells, and fresh cells
    where the row has no value. *)
Definition rendered_row (num_cols : nat) (row_data : list CellValue) : list Cell :=
  ((λ v, data_cell v new_cell) <$> take num_cols row_data)
  ++ replicate (num_cols - length row_data) new_cell.

Definition rendered_table (headers : list CellValue) (rows : list (list CellValue)) : Table :=
  ((λ h, header_cell h new_cell) <$> headers)
  :: (rendered_row (length headers) <$> rows).

(** ** Slides *)

(** The slide of a passage, and the slide of the answer numbered [k]. *)
Definition passage_slide (passage_text : string) : Slide :=
  [TextBox TEXTBOX_HEIGHT
     (text_box_frame passage_text (Some FONT_SIZE_PASSAGE) false LEFT)].

Definition answer_slide (k : nat) (answer_text : string) : Slide :=
  [TextBox TEXTBOX_HEIGHT
     (text_box_frame ("Ans" +:+ pretty k +:+ ". " +:+ answer_text)
        (Some FONT_SIZE_ANSWER) false LEFT)].

(** A question slide without a table: the text block alone, at full
    height. *)
Definition text_only_slide (question_data : Content) (question_number : string) : Slide :=
  [TextBox TEXTBOX_HEIGHT
     (text_box_frame (full_question question_data question_number)
        (Some FONT_SIZE_QUESTION) false LEFT)].

(** [g] with one more slide. *)
Definition with_slide (g : PPTXGenerator) (s : Slide) : PPTXGenerator :=
  {| prs := prs g ++ [s]; answer_counter := answer_counter g |}.

(** ** The options-table rule as the specification words it *)

(** The row's first cell, trimmed, is ["("], one letter, [")"], and is
    equal, case aside, to the first three characters of the option. *)
Definition restates_option (row : list CellValue) (option : string) : bool :=
  match row with
  | [] => false
  | row0 :: _ =>
      let first_cell := Py.strip (str row0) in
      match first_cell with
      | String open (String letter (String close EmptyString)) =>
          Ascii.eqb open "(" && Py.isalpha_char letter && Ascii.eqb close ")"
          && String.eqb (Py.lower first_cell) (Py.lower (Py.slice_to option 3))
      | _ => false
      end
  end.

(** How many rows restate the option at their own index. *)
Fixpoint restated_rows (rows : list (list CellValue)) (options : list string) : nat :=
  match rows, options with
  | row :: rows', option :: options' =>
      (if restates_option row option then 1 else 0) + restated_rows rows' options'
  | _, _ => 0
  end.

(** The test [match_row] makes on a row and the option at its index. *)
Definition row_matches (row : list CellValue) (option_i : string) : bool :=
  match row with
  | [] => false
  | row0 :: _ =>
      let first_cell := Py.strip (str row0) in
      Py.startswith first_cell "(" && (3 <=? Py.len first_cell)
      && Py.isalpha (Py.slice first_cell 1 2) && Py.endswith first_cell ")"
      && String.eqb (Py.lower first_cell)
           (Py.lower (if 3 <=? Py.len option_i
                      then Py.slice_to (Py.strip option_i) 3 else ""))
  end.

(** Scenario D of the specification: rows labelled ["(a)"], ["(b)"] next
    to the options ["a) x"], ["b) y"]; and the same table next to options
    written ["(a) x"], ["(b) y"]. *)
Definition scenario_D_table : TableData :=
  {| headers := Some [Some "Option"; Some "Value"];
     rows := Some [[Some "(a)"; Some "x"]; [Some "(b)"; Some "y"]] |}.

Definition scenario_D : Content :=
  {| question_text := Some "Pick one"; options := Some ["a) x"; "b) y"];
     table := Some scenario_D_table;
     diagram_description := None; passage := None; answer_text := None |}.

Definition scenario_D_parenthesized : Content :=
  {| question_text := Some "Pick one"; options := Some ["(a) x"; "(b) y"];
     table := Some scenario_D_table;
     diagram_description := None; passage := None; answer_text := None |}.

(** ** The run of the assembler *)

(** The slide specs in the order [generate] visits them, each with the
    number of its record (["Q?"] when the record has none). *)
Definition flat (questions : list QuestionRecord) : list (string * SlideSpec) :=
  q ← questions;
  (λ slide_data, (get (question_number q) "Q?", slide_data)) <$> get (slides q) [].

(** The two nested loops as one loop over [flat questions]. *)
Fixpoint process_flat (include_answers : bool) (specs : list (string * SlideSpec))
    (g : PPTXGenerator) : result PPTXGenerator :=
  match specs with
  | [] => Ok g
  | (question_number, slide_data) :: specs' =>
      g ← process_slide include_answers question_number slide_data g;
      process_flat include_answers specs' g
  end.

Definition is_passage (sd : SlideSpec) : bool := bool_decide (slide_type sd = Some "passage").
Definition is_question (sd : SlideSpec) : bool := bool_decide (slide_type sd = Some "question").
Definition is_answer (sd : SlideSpec) : bool := bool_decide (slide_type sd = Some "answer").

(** The specs that give a slide, and those that take an answer number. *)
Definition emits (include_answers : bool) (sd : SlideSpec) : bool :=
  is_passage sd || is_question sd || (is_answer sd && include_answers).

Definition numbered (include_answers : bool) (sd : SlideSpec) : bool :=
  is_answer sd && include_answers.

Fixpoint count_specs (f : SlideSpec → bool) (specs : list (string * SlideSpec)) : nat :=
  match specs with
  | [] => 0
  | (_, sd) :: specs' => (if f sd then 1 else 0) + count_specs f specs'
  end.

(** The slide [s] is what the builder for the type of [sd] makes of it:
    the passage text, the question content under the record's number, or
    the answer text under the answer number [k]. *)
Definition renders (include_answers : bool) (k : nat) (question_number : string)
    (sd : SlideSpec) (s : Slide) : Prop :=
  let c := get (content sd) empty_content in
  (slide_type sd = Some "passage" ∧ s = passage_slide (get (passage c) ""))
  ∨ (slide_type sd = Some "question"
     ∧ ∀ g, create_question_slide c question_number g = Ok (with_slide g s))
  ∨ (slide_type sd = Some "answer" ∧ include_answers = true
     ∧ s = answer_slide k (get (answer_text c) "")).

(** Every question slide of the input can be built: its builder does not
    fail on a new generator. *)
Definition question_builds (question_number : string) (sd : SlideSpec) : Prop :=
  slide_type sd = Some "question" →
  ∃ g', create_question_slide (get (content sd) empty_content) question_number init = Ok g'.

Definition buildable (questions : list QuestionRecord) : Prop :=
  Forall (λ p, question_builds p.1 p.2) (flat questions).

(** Every table of the input has its ['rows']. *)
Definition rows_present (questions : list QuestionRecord) : Prop :=
  ∀ qn sd c td,
    (qn, sd) ∈ flat questions → content sd = Some c → table c = Some td →
    is_Some (rows td).

(** Slide specs as the parser writes them. *)
Definition passage_spec (passage_text : string) : SlideSpec :=
  {| slide_type := Some "passage";
     content := Some {| question_text := None; options := None; table := None;
                        diagram_description := None;
                        passage := Some passage_text; answer_text := None |} |}.

Definition question_spec (question_data : Content) : SlideSpec :=
  {| slide_type := Some "question"; content := Some question_data |}.

Definition answer_spec (text : string) : SlideSpec :=
  {| slide_type := Some "answer";
     content := Some {| question_text := None; options := None; table := None;
                        diagram_description := None;
                        passage := None; answer_text := Some text |} |}.

(** Scenarios A and C of the specification: a record with a question and
    its answer, and one with a passage slide, a question slide and an
    answer slide. *)
Definition scenario_A_question : Content :=
  {| question_text := Some "What is 2+2?"; options := Some ["a) 3"; "b) 4"];
     table := None; diagram_description := None;
     passage := None; answer_text := None |}.

Definition scenario_A : QuestionRecord :=
  {| question_number := Some "Q1";
     slides := Some [question_spec scenario_A_question; answer_spec "4"] |}.

Definition scenario_C_question : Content :=
  {| question_text := Some "Which city?"; options := None;
     table := None; diagram_description := None;
     passage := None; answer_text := None |}.

Definition scenario_C : QuestionRecord :=
  {| question_number := Some "Q2";
     slides := Some [passage_spec "Read this.";
                     question_spec scenario_C_question;
                     answer_spec "Paris"] |}.

(** * The rest of the engine and its callers *)

(** ** [add_formatted_text] *)

Section FormattedText.

Import Py.

(** What one iteration of [add_formatted_text] does to the paragraph it
    has just added: left aligned, spaced, with one run holding the line
    (a space for a blank line).  The colour argument is left out, as
    colours are throughout. *)
Definition formatted_paragraph (n_lines i : nat) (line : string)
    (font_size : option nat) (bold : bool) (p : Paragraph) : Paragraph :=
  {| alignment := Some LEFT;
     space_after := Some (if i <? n_lines - 1 then 8 else 0);
     space_before := Some 0;
     runs := runs p ++ [{| run_text := if nonempty (strip line) then line else " ";
                           run_size := size_or_default font_size;
                           run_bold := Some bold |}] |}.

(** [paragraph = text_frame.add_paragraph()] and its formatting. *)
Definition add_formatted_line (n_lines i : nat) (line : string)
    (font_size : option nat) (bold : bool) (text_frame : TextFrame) : TextFrame :=
  alter (formatted_paragraph n_lines i line font_size bold) (length text_frame)
    (text_frame ++ [new_paragraph]).

Fixpoint add_formatted_lines (n_lines i : nat) (lines : list string)
    (font_size : option nat) (bold : bool) (text_frame : TextFrame) : TextFrame :=
  match lines with
  | [] => text_frame
  | line :: lines' =>
      add_formatted_lines n_lines (S i) lines' font_size bold
        (add_formatted_line n_lines i line font_size bold text_frame)
  end.

Definition add_formatted_text (text_frame : TextFrame) (text : string)
    (font_size : option nat) (bold : bool) : TextFrame :=
  let lines := split newline text in
  add_formatted_lines (length lines) 0 lines font_size bold text_frame.

End FormattedText.

(** ** The slide count announced before generating

    [main] of [step3_pptx_new.py] and [run_step3] compute it the same
    way. *)

Section AnnouncedCount.

(** [sum(len(q.get('slides', [])) for q in questions)]. *)
Fixpoint total_slides_of (questions : list QuestionRecord) : nat :=
  match questions with
  | [] => 0
  | q :: questions' => length (get (slides q) []) + total_slides_of questions'
  end.

(** [for slide in q.get('slides', []): if slide.get('slide_type') != 'answer':
    total_slides += 1]. *)
Fixpoint count_non_answers (slides : list SlideSpec) (total_slides : nat) : nat :=
  match slides with
  | [] => total_slides
  | slide :: slides' =>
      count_non_answers slides'
        (if decide (slide_type slide ≠ Some "answer") then total_slides + 1
         else total_slides)
  end.

Fixpoint count_non_answer_slides (questions : list QuestionRecord) (total_slides : nat) : nat :=
  match questions with
  | [] => total_slides
  | q :: questions' =>
      count_non_answer_slides questions'
        (count_non_answers (get (slides q) []) total_slides)
  end.

Definition announced_slides (include_answers : bool) (questions : list QuestionRecord) : nat :=
  if include_answers then total_slides_of questions
  else count_non_answer_slides questions 0.

End AnnouncedCount.

(** ** The output name of [streamlit_app.py]

    [process_pdf] has its own loop:
    [while output_pptx.exists(): output_pptx = ...; counter += 1]. *)

Section StreamlitOutput.

Fixpoint next_unused (fuel : nat) (fs : gmap string File) (pdf_name : string)
    (output_pptx : string) (counter : nat) : option string :=
  match fuel with
  | 0 => None
  | S fuel' =>
      if path_exists fs output_pptx
      then next_unused fuel' fs pdf_name (numbered_path "PPTs" pdf_name counter) (S counter)
      else Some output_pptx
  end.

(** The loop stops within [size fs + 2] tests (see
    [streamlit_output_path_unique]). *)
Definition streamlit_output_path (fs : gmap string File) (pdf_name : string) : option string :=
  next_unused (S (S (size fs))) fs pdf_name (path_join "PPTs" (pdf_name +:+ ".pptx")) 1.

End StreamlitOutput.

(** ** [validate_questions] *)

Section Validation.

(** A parsed question as [validate_questions] reads it: the record the
    assembler uses and the key [question_type]. *)
Record ParsedQuestion : Type := {
  question_type : option string;
  record : QuestionRecord;
}.

Record Stats : Type := {
  total_questions : nat;
  total_slides : nat;
  questions_with_answers : nat;
  questions_with_options : nat;
  questions_with_tables : nat;
  questions_with_diagrams : nat;
  passage_based : nat;
}.

(** [stats[key] += n], one key at a time. *)
Definition add_total_slides (n : nat) (st : Stats) : Stats :=
  {| total_questions := total_questions st;
     total_slides := total_slides st + n;
     questions_with_answers := questions_with_answers st;
     questions_with_options := questions_with_options st;
     questions_with_tables := questions_with_tables st;
     questions_with_diagrams := questions_with_diagrams st;
     passage_based := passage_based st |}.

Definition add_with_answers (n : nat) (st : Stats) : Stats :=
  {| total_questions := total_questions st;
     total_slides := total_slides st;
     questions_with_answers := questions_with_answers st + n;
     questions_with_options := questions_with_options st;
     questions_with_tables := questions_with_tables st;
     questions_with_diagrams := questions_with_diagrams st;
     passage_based := passage_based st |}.

Definition add_with_options (n : nat) (st : Stats) : Stats :=
  {| total_questions := total_questions st;
     total_slides := total_slides st;
     questions_with_answers := questions_with_answers st;
     questions_with_options := questions_with_options st + n;
     questions_with_tables := questions_with_tables st;
     questions_with_diagrams := questions_with_diagrams st;
     passage_based := passage_based st |}.

Definition add_with_tables (n : nat) (st : Stats) : Stats :=
  {| total_questions := total_questions st;
     total_slides := total_slides st;
     questions_with_answers := questions_with_answers st;
     questions_with_options := questions_with_options st;
     questions_with_tables := questions_with_tables st + n;
     questions_with_diagrams := questions_with_diagrams st;
     passage_based := passage_based st |}.

Definition add_with_diagrams (n : nat) (st : Stats) : Stats :=
  {| total_questions := total_questions st;
     total_slides := total_slides st;
     questions_with_answers := questions_with_answers st;
     questions_with_options := questions_with_options st;
     questions_with_tables := questions_with_tables st;
     questions_with_diagrams := questions_with_diagrams st + n;
     passage_based := passage_based st |}.

Definition add_passage_based (n : nat) (st : Stats) : Stats :=
  {| total_questions := total_questions st;
     total_slides := total_slides st;
     questions_with_answers := questions_with_answers st;
     questions_with_options := questions_with_options st;
     questions_with_tables := questions_with_tables st;
     questions_with_diagrams := questions_with_diagrams st;
     passage_based := passage_based st + n |}.

(** The flags and statistics the slide loop carries ([has_answer] is set
    but never read, and is left out). *)
Record SlideFlags : Type := {
  has_options : bool;
  has_table_flag : bool;
  has_diagram : bool;
}.

(** The body of [for slide in q['slides']]. *)
Definition check_slide (slide : SlideSpec) (acc : SlideFlags * Stats) : SlideFlags * Stats :=
  let '(flags, stats) := acc in
  let stats :=
    if decide (slide_type slide = Some "answer") then add_with_answers 1 stats
    else stats in
  let content := get (content slide) empty_content in
  let flags :=
    {| has_options := if truthy (get (options content) []) then true else has_options flags;
       has_table_flag :=
         if match table content with Some td => table_truthy td | None => false end
         then true else has_table_flag flags;
       has_diagram :=
         if Py.nonempty (get (diagram_description content) "") then true
         else has_diagram flags |} in
  (flags, stats).

Fixpoint check_slides (slides : list SlideSpec) (acc : SlideFlags * Stats) : SlideFlags * Stats :=
  match slides with
  | [] => acc
  | slide :: slides' => check_slides slides' (check_slide slide acc)
  end.

Definition missing (i : nat) (key : string) : string :=
  "Question " +:+ pretty (i + 1) +:+ ": Missing " +:+ key.

(** The body of [for i, q in enumerate(questions)]; a question without
    ['slides'] is reported and skipped ([continue]). *)
Definition validate_question (i : nat) (q : ParsedQuestion)
    (acc : list string * Stats) : list string * Stats :=
  let '(issues, stats) := acc in
  let issues :=
    match question_number (record q) with
    | None => issues ++ [missing i "question_number"]
    | Some _ => issues
    end in
  let issues :=
    match question_type q with
    | None => issues ++ [missing i "question_type"]
    | Some _ => issues
    end in
  match slides (record q) with
  | None => (issues ++ [missing i "slides"], stats)
  | Some slides =>
      let stats := add_total_slides (length slides) stats in
      let '(flags, stats) :=
        check_slides slides
          ({| has_options := false; has_table_flag := false; has_diagram := false |},
           stats) in
      let stats := if has_options flags then add_with_options 1 stats else stats in
      let stats := if has_table_flag flags then add_with_tables 1 stats else stats in
      let stats := if has_diagram flags then add_with_diagrams 1 stats else stats in
      let stats :=
        if decide (question_type q = Some "passage_based")
        then add_passage_based 1 stats else stats in
      (issues, stats)
  end.

Fixpoint validate_from (i : nat) (questions : list ParsedQuestion)
    (acc : list string * Stats) : list string * Stats :=
  match questions with
  | [] => acc
  | q :: questions' => validate_from (S i) questions' (validate_question i q acc)
  end.

(** [(is_valid, issues, stats)]. *)
Definition validate_questions (questions : list ParsedQuestion) : bool * list string * Stats :=
  let '(issues, stats) :=
    validate_from 0 questions
      ([], {| total_questions := length questions; total_slides := 0;
              questions_with_answers := 0; questions_with_options := 0;
              questions_with_tables := 0; questions_with_diagrams := 0;
              passage_based := 0 |}) in
  (bool_decide (length issues = 0), issues, stats).

End Validation.

(** ** Vocabulary of the further properties *)










(** [question_data] with another value under ['diagram_description']. *)
Definition set_diagram (d : option string) (c : Content) : Content :=
  {| question_text := question_text c; options := options c; table := table c;
     diagram_description := d; passage := passage c; answer_text := answer_text c |}.



(** The record without its answer slides. *)
Definition without_answers (q : QuestionRecord) : QuestionRecord :=
  {| question_number := question_number q;
     slides := filter (λ sd, slide_type sd ≠ Some "answer") <$> slides q |}.

(** A slide type [generate] has no branch for. *)
Definition unknown_type (sd : SlideSpec) : bool :=
  negb (is_passage sd || is_question sd || is_answer sd).

(** The question lacks the key [key], one of the three
    [validate_questions] asks for. *)
Definition lacks_key (q : ParsedQuestion) (key : string) : Prop :=
  (key = "question_number" ∧ question_number (record q) = None)
  ∨ (key = "question_type" ∧ question_type q = None)
  ∨ (key = "slides" ∧ slides (record q) = None).

Definition complete (q : ParsedQuestion) : Prop :=
  is_Some (question_number (record q)) ∧ is_Some (question_type q)
  ∧ is_Some (slides (record q)).

(** The issues of one question, and of the questions from position [i]
    on, in the order they are reported. *)
Definition question_issues (i : nat) (q : ParsedQuestion) : list string :=
  (match question_number (record q) with
   | None => [missing i "question_number"] | Some _ => [] end)
  ++ (match question_type q with
      | None => [missing i "question_type"] | Some _ => [] end)
  ++ (match slides (record q) with
      | None => [missing i "slides"] | Some _ => [] end).

Fixpoint issues_from (i : nat) (questions : list ParsedQuestion) : list string :=
  match questions with
  | [] => []
  | q :: questions' => question_issues i q ++ issues_from (S i) questions'
  end.

(** Two parsed questions: scenario A, complete, and a record that has
    only its two answer slides. *)
Definition parsed_A : ParsedQuestion :=
  {| question_type := Some "regular"; record := scenario_A |}.

Definition parsed_answers_only : ParsedQuestion :=
  {| question_type := None;
     record := {| question_number := None;
                  slides := Some [answer_spec "4"; answer_spec "5"] |} |}.

(** * Facts about the string operations *)

Section PyFacts.

Import Py.

Lemma append_nil (t : string) : "" +:+ t = t.
Proof. reflexivity. Qed.

Lemma append_cons (c : ascii) (s t : string) :
  String c s +:+ t = String c (s +:+ t).
Proof. reflexivity. Qed.


Lemma append_assoc (s t u : string) : (s +:+ t) +:+ u = s +:+ (t +:+ u).
Proof.
  induction s as [|c s IH]; [done|]. by rewrite !append_cons, IH.
Qed.

Lemma len_append (s t : string) : len (s +:+ t) = len s + len t.
Proof.
  induction s as [|c s IH]; [done|]. rewrite append_cons. simpl. by rewrite IH.
Qed.

Lemma split_not_nil (sep : ascii) (s : string) : split sep s ≠ [].
Proof.
  destruct s as [|c s]; simpl; [done|].
  destruct (Ascii.eqb c sep); [done|]. by destruct (split sep s).
Qed.

(** One more piece than separators. *)
Lemma split_length (sep : ascii) (s : string) :
  length (split sep s) = S (count sep s).
Proof.
  induction s as [|c s IH]; simpl; [done|].
  destruct (Ascii.eqb c sep); simpl; [by rewrite IH|].
  destruct (split sep s) eqn:E; simpl in *; [done | by rewrite <- IH].
Qed.


Lemma split_no_sep (sep : ascii) (s : string) :
  count sep s = 0 → split sep s = [s].
Proof.
  induction s as [|c s IH]; simpl; [done|].
  destruct (Ascii.eqb c sep); simpl; [done|].
  intros H. by rewrite (IH H).
Qed.

Lemma split_append_sep (sep : ascii) (l rest : string) :
  count sep l = 0 →
  split sep (l +:+ String sep rest) = l :: split sep rest.
Proof.
  induction l as [|c l IH].
  - intros _. rewrite append_nil. simpl. by rewrite Ascii.eqb_refl.
  - rewrite append_cons. simpl.
    destruct (Ascii.eqb c sep); simpl; [done|].
    intros H. by rewrite (IH H).
Qed.

(** Splitting a join of separator-free lines gives the lines back. *)
Lemma split_join (sep : ascii) (lines : list string) :
  lines ≠ [] →
  Forall (λ l, count sep l = 0) lines →
  split sep (join (String sep "") lines) = lines.
Proof.
  unfold join. induction lines as [|l lines IH]; [done|].
  intros _ Hall. apply Forall_cons in Hall as [Hl Hall].
  destruct lines as [|l' lines]; simpl.
  - by apply split_no_sep.
  - rewrite append_cons, append_nil, split_append_sep by done.
    f_equal. by apply IH.
Qed.



Lemma startswith_cons (a b : ascii) (p s : string) :
  startswith (String b s) (String a p) = Ascii.eqb a b && startswith s p.
Proof. reflexivity. Qed.

Lemma startswith_append (p s : string) : startswith (p +:+ s) p = true.
Proof.
  induction p as [|c p IH]; [done|].
  rewrite append_cons. simpl. by rewrite Ascii.eqb_refl, IH.
Qed.

Lemma substring_zero (s : string) : String.substring 0 0 s = "".
Proof. by destruct s. Qed.

Lemma substring_all (s : string) (n : nat) :
  len s ≤ n → String.substring 0 n s = s.
Proof.
  revert n. induction s as [|c s IH]; intros [|n] H; simpl in *;
    try done; try lia.
  rewrite IH; [done | lia].
Qed.

(** [(p + s)[:len(p)]] and [(p + s)[len(p):]]. *)
Lemma slice_to_append (p s : string) : slice_to (p +:+ s) (len p) = p.
Proof.
  unfold slice_to. induction p as [|c p IH]; [by destruct s|].
  rewrite append_cons. simpl. by rewrite IH.
Qed.

Lemma substring_append (p s : string) (n : nat) :
  String.substring (len p) n (p +:+ s) = String.substring 0 n s.
Proof.
  induction p as [|c p IH]; [done|]. rewrite append_cons. simpl. apply IH.
Qed.

Lemma slice_from_append (p s : string) : slice_from (p +:+ s) (len p) = s.
Proof.
  unfold slice_from. rewrite substring_append, len_append.
  apply substring_all. lia.
Qed.

Lemma get_append (p s : string) (i : nat) :
  String.get (len p + i) (p +:+ s) = String.get i s.
Proof.
  induction p as [|c p IH]; [done|]. rewrite append_cons. simpl. apply IH.
Qed.

Lemma lstrip_lstrip (s : string) : lstrip (lstrip s) = lstrip s.
Proof.
  induction s as [|c s IH]; simpl; [done|].
  destruct (isspace c) eqn:E; [done|]. simpl. by rewrite E.
Qed.

Lemma strip_lstrip (s : string) : strip (lstrip s) = strip s.
Proof. unfold strip. by rewrite lstrip_lstrip. Qed.

(** A stripped string does not start with whitespace. *)
Lemma lstrip_strip (s : string) : lstrip (strip s) = strip s.
Proof.
  unfold strip. induction s as [|c s IH]; simpl; [done|].
  destruct (isspace c) eqn:E; [done|]. simpl.
  destruct (rstrip s); rewrite ?E; simpl; by rewrite E.
Qed.

Lemma startswith_space_strip (s : string) :
  startswith (strip s) " " = true → False.
Proof.
  intros H. pose proof (lstrip_strip s) as Hl.
  destruct (strip s) as [|c t]; [done|].
  change " " with (String " " "") in H. rewrite startswith_cons in H.
  destruct (Ascii.eqb " " c) eqn:E; [|done]. apply Ascii.eqb_eq in E as <-.
  simpl in Hl. assert (len (lstrip t) ≤ len t) as Hle.
  { clear. induction t as [|c t IH]; simpl; [done|].
    destruct (isspace c); simpl in *; lia. }
  rewrite Hl in Hle. simpl in Hle. lia.
Qed.

End PyFacts.

(** * The text box: one paragraph per line *)

Section TextBoxFacts.

Import Py.

Variables (font_size : option nat) (bold : bool) (align : PP_ALIGN).

(** Past the first line every iteration appends its own paragraph. *)
Lemma format_lines_later (n i : nat) (lines : list string) (frame : TextFrame) :
  0 < i →
  format_lines n i lines font_size bold align frame =
  frame ++ imap (λ j line,
               format_paragraph n (i + j) line font_size bold align new_paragraph) lines.
Proof.
  revert i frame. induction lines as [|line lines IH]; intros i frame Hi; simpl.
  - by rewrite app_nil_r.
  - rewrite IH by lia. unfold format_line.
    destruct (0 <? i) eqn:E; [|apply Nat.ltb_ge in E; lia].
    replace (length frame) with (length frame + 0) by lia.
    rewrite alter_app_r. simpl. rewrite <- app_assoc. simpl.
    rewrite Nat.add_0_r. do 2 f_equal.
    apply imap_ext. intros j x _. simpl. do 2 f_equal. lia.
Qed.

Lemma format_lines_cleared (n : nat) (lines : list string) :
  lines ≠ [] →
  format_lines n 0 lines font_size bold align cleared =
  imap (λ j line, format_paragraph n j line font_size bold align new_paragraph) lines.
Proof.
  destruct lines as [|line lines]; [done|]. intros _. simpl.
  rewrite format_lines_later by lia. simpl. f_equal.
Qed.

Lemma text_box_frame_lines (text : string) :
  text_box_frame text font_size bold align =
  imap (λ j line,
          format_paragraph (length (split newline text)) j line
            font_size bold align new_paragraph)
       (split newline text).
Proof. unfold text_box_frame. apply format_lines_cleared, split_not_nil. Qed.


End TextBoxFacts.



(** * Numbered-label lines *)

Section NumberedLines.

Import Py.

Lemma digit_at_append (p s : string) :
  digit_at (p +:+ s) (len p) = digit_at s 0.
Proof.
  unfold digit_at. replace (len p) with (len p + 0) by lia.
  by rewrite get_append.
Qed.

(** The scan started right after [pre] stops right after the digits. *)
Lemma scan_digits_stops (digits : string) :
  ∀ (pre r : string) (fuel : nat),
    all_chars isdigit_char digits = true →
    digit_at r 0 = false →
    len digits < fuel →
    scan_digits fuel (pre +:+ digits +:+ r) (len pre) = len pre + len digits.
Proof.
  induction digits as [|d ds IH]; intros pre r fuel Hds Hr Hfuel;
    (destruct fuel as [|fuel]; [simpl in Hfuel; lia|]); simpl.
  - rewrite append_nil, digit_at_append, Hr, andb_false_r. lia.
  - apply andb_prop in Hds as [Hd Hds].
    rewrite digit_at_append. unfold digit_at at 1. rewrite append_cons. simpl.
    rewrite Hd, andb_true_r.
    replace (len pre <? len (pre +:+ String d (ds +:+ r))) with true.
    2:{ symmetry. apply Nat.ltb_lt. rewrite len_append. simpl. lia. }
    replace (pre +:+ String d (ds +:+ r))
      with ((pre +:+ String d "") +:+ ds +:+ r)
      by (by rewrite append_assoc, append_cons, append_nil).
    replace (S (len pre)) with (len (pre +:+ String d ""))
      by (rewrite len_append; simpl; lia).
    rewrite IH; [|done|done|simpl in Hfuel; lia].
    rewrite len_append. simpl. lia.
Qed.

Lemma numbered_parts (pre digits r : string) :
  pre = "Q" ∨ pre = "Ans" →
  isdigit digits = true →
  digit_at r 0 = false →
  is_numbered ((pre +:+ digits) +:+ r) = true
  ∧ number_part_and_rest ((pre +:+ digits) +:+ r) = (pre +:+ digits, strip r).
Proof.
  intros Hpre [Hne Hds]%andb_prop Hr.
  assert (number_end ((pre +:+ digits) +:+ r) (len pre) = len (pre +:+ digits))
    as Hend.
  { unfold number_end. rewrite append_assoc, scan_digits_stops; try done.
    - by rewrite len_append.
    - rewrite !len_append. destruct Hpre as [-> | ->]; simpl; lia. }
  assert (slice_to ((pre +:+ digits) +:+ r) (len (pre +:+ digits)) = pre +:+ digits
          ∧ slice_from ((pre +:+ digits) +:+ r) (len (pre +:+ digits)) = r)
    as [Hto Hfrom] by (by rewrite slice_to_append, slice_from_append).
  destruct digits as [|d ds]; [done|]. apply andb_prop in Hds as [Hd _].
  unfold number_part_and_rest, is_numbered.
  destruct Hpre as [-> | ->].
  - change (startswith (("Q" +:+ String d ds) +:+ r) "Q") with true.
    cbv iota.
    change (number_end (("Q" +:+ String d ds) +:+ r) 1)
      with (number_end (("Q" +:+ String d ds) +:+ r) (len "Q")).
    rewrite Hend, Hto, Hfrom.
    split; [|done]. apply orb_true_intro. left.
    change (("Q" +:+ String d ds) +:+ r) with (String "Q" (String d (ds +:+ r))).
    unfold slice. simpl. rewrite substring_zero. unfold isdigit. simpl.
    by rewrite Hd.
  - change (startswith (("Ans" +:+ String d ds) +:+ r) "Q") with false.
    change (startswith (("Ans" +:+ String d ds) +:+ r) "Ans") with true.
    cbv iota.
    change (number_end (("Ans" +:+ String d ds) +:+ r) 3)
      with (number_end (("Ans" +:+ String d ds) +:+ r) (len "Ans")).
    rewrite Hend, Hto, Hfrom.
    split; [|done].
    change (("Ans" +:+ String d ds) +:+ r) with ("Ans" +:+ String d (ds +:+ r)).
    unfold slice. simpl. rewrite substring_zero. unfold isdigit. simpl.
    by rewrite Hd.
Qed.

(** The runs of a numbered-label line. *)
Lemma numbered_line_runs (line pre digits r : string)
    (font_size : option nat) (bold : bool) :
  pre = "Q" ∨ pre = "Ans" →
  isdigit digits = true →
  digit_at r 0 = false →
  strip line = (pre +:+ digits) +:+ r →
  let rest := strip r in
  let text := if startswith rest "." then strip (lstrip_char "." rest) else rest in
  line_runs line font_size bold =
  if nonempty text then
    [{| run_text := (pre +:+ digits) +:+ ". ";
        run_size := size_or_default font_size; run_bold := Some true |};
     {| run_text := text;
        run_size := size_or_default font_size; run_bold := Some bold |}]
  else
    [{| run_text := (pre +:+ digits) +:+ (if startswith rest "." then "." else ". ");
        run_size := size_or_default font_size; run_bold := Some true |}].
Proof.
  intros Hpre Hds Hr Hline.
  destruct (numbered_parts pre digits r Hpre Hds Hr) as [Hnum Hparts].
  unfold line_runs. rewrite Hline, Hnum, Hparts. cbv zeta.
  unfold separator_and_text. rewrite strip_lstrip.
  destruct (startswith (strip r) ".") eqn:Hdot.
  - by destruct (nonempty (strip (lstrip_char "." (strip r)))).
  - destruct (startswith (strip r) " ") eqn:Hsp.
    + by destruct (startswith_space_strip r).
    + by destruct (nonempty (strip r)).
Qed.

End NumberedLines.

(** C3 (amended). A line that, once trimmed, is a label [Q<digits>] or
    [Ans<digits>] followed by a remainder [r] opens with one bold run, the
    label and the separator [". "], and carries the remaining text, if
    any, as a second run at the caller's weight.  The exception is a
    remainder made of periods only: the bold run is then the label and a
    bare ["."].  The variants ["Q3 text"], ["Q3. text"] and ["Q3text"]
    all give ["Q3. "] followed by ["text"]. *)
Theorem numbered_label_runs :
  (∀ (line label digits r : string) (font_size : option nat) (bold : bool),
     label = "Q" +:+ digits ∨ label = "Ans" +:+ digits →
     Py.isdigit digits = true →
     digit_at r 0 = false →
     Py.strip line = label +:+ r →
     line_runs line font_size bold =
     label_run (label +:+ (if only_periods r then "." else ". ")) font_size
     :: (if Py.nonempty (remaining_text r)
         then [body_run (remaining_text r) font_size bold] else []))
  ∧ line_runs "Q3 text" None false = [label_run "Q3. " None; body_run "text" None false]
  ∧ line_runs "Q3. text" None false = [label_run "Q3. " None; body_run "text" None false]
  ∧ line_runs "Q3text" None false = [label_run "Q3. " None; body_run "text" None false].
Proof.
  split; [|by vm_compute].
  intros line label digits r font_size bold Hlabel Hds Hr Hline.
  assert (∃ pre, (pre = "Q" ∨ pre = "Ans") ∧ label = pre +:+ digits)
    as (pre & Hpre & ->) by (destruct Hlabel; eauto).
  rewrite (numbered_line_runs line pre digits r font_size bold Hpre Hds Hr Hline).
  unfold only_periods, remaining_text, label_run, body_run.
  destruct (Py.startswith (Py.strip r) ".");
    [destruct (Py.nonempty (Py.strip (Py.lstrip_char "." (Py.strip r))))
    |destruct (Py.nonempty (Py.strip r))]; reflexivity.
Qed.

(** The line ["  Ans12..  the answer "]: label [Ans12], remainder
    ["..  the answer"]. *)
Lemma numbered_label_runs_witness :
  line_runs "  Ans12..  the answer " (Some 30) true =
  [label_run "Ans12. " (Some 30); body_run "the answer" (Some 30) true].
Proof.
  exact (proj1 numbered_label_runs "  Ans12..  the answer " "Ans12" "12"
           "..  the answer" (Some 30) true
           (or_intror eq_refl) eq_refl eq_refl eq_refl).
Defined.

(** The separator is not always [". "]: for the line ["Q3."], whose
    remainder is empty once its period is consumed, the only run is
    ["Q3."]. *)
Lemma numbered_label_bare_period :
  ¬ (∀ (line label digits r : string),
       label = "Q" +:+ digits ∨ label = "Ans" +:+ digits →
       Py.isdigit digits = true →
       digit_at r 0 = false →
       Py.strip line = label +:+ r →
       ∃ tail, line_runs line None false = label_run (label +:+ ". ") None :: tail).
Proof.
  intros H.
  destruct (H "Q3." "Q3" "3" "." (or_introl eq_refl) eq_refl eq_refl eq_refl)
    as [tail Htail].
  vm_compute in Htail. discriminate Htail.
Qed.

(** * The table renderer *)

Section TableFacts.

Lemma write_cell_ok (r c : nat) (f : Cell → Cell) (t : Table)
    (row : list Cell) (cell : Cell) :
  t !! r = Some row → row !! c = Some cell →
  write_cell r c f t = Ok (<[r := <[c := f cell]> row]> t).
Proof. intros Hr Hc. unfold write_cell, subscript. by rewrite Hr; simpl; rewrite Hc. Qed.

Lemma overlay_length (f : CellValue → Cell → Cell) (values : list CellValue) :
  ∀ cells, length (overlay f values cells) = length cells.
Proof.
  induction values as [|v values IH]; intros [|cell cells]; simpl; auto.
Qed.

Lemma overlay_data_fresh (values : list CellValue) :
  ∀ n, overlay data_cell values (replicate n new_cell) = rendered_row n values.
Proof.
  unfold rendered_row.
  induction values as [|v values IH]; intros [|n]; simpl; try done.
  by rewrite IH.
Qed.

Lemma overlay_header_fresh (hs : list CellValue) :
  overlay header_cell hs (replicate (length hs) new_cell)
  = (λ h, header_cell h new_cell) <$> hs.
Proof. induction hs as [|h hs IH]; simpl; [done | by rewrite IH]. Qed.

(** Past the last column nothing is written. *)
Lemma fill_row_past (n r : nat) (row_data : list CellValue) :
  ∀ c t, n ≤ c → fill_row n r c row_data t = Ok t.
Proof.
  induction row_data as [|v row_data IH]; intros c t Hc; simpl; [done|].
  destruct (c <? n) eqn:E; [apply Nat.ltb_lt in E; lia|]. simpl.
  apply IH. lia.
Qed.

Lemma fill_row_overlay (n r : nat) (row_data : list CellValue) :
  ∀ c t done todo,
    t !! r = Some (done ++ todo) →
    length done = c →
    length (done ++ todo) = n →
    fill_row n r c row_data t
    = Ok (<[r := done ++ overlay data_cell row_data todo]> t).
Proof.
  induction row_data as [|v row_data IH]; intros c t done todo Ht Hc Hn; simpl.
  - by rewrite list_insert_id.
  - destruct todo as [|cell todo].
    + rewrite length_app in Hn. simpl in Hn.
      destruct (c <? n) eqn:E; [apply Nat.ltb_lt in E; lia|]. simpl.
      rewrite fill_row_past by lia. by rewrite list_insert_id.
    + rewrite length_app in Hn. simpl in Hn.
      destruct (c <? n) eqn:E; [|apply Nat.ltb_ge in E; lia].
      rewrite (write_cell_ok r c _ t (done ++ cell :: todo) cell); try done.
      2:{ subst c. by rewrite list_lookup_middle. }
      simpl. subst c.
      rewrite insert_app_r_alt, Nat.sub_diag by done. simpl.
      rewrite (IH (S (length done)) _ (done ++ [data_cell v cell]) todo).
      * rewrite list_insert_insert_eq. by rewrite <- app_assoc.
      * rewrite list_lookup_insert_eq; [by rewrite <- app_assoc|].
        by apply lookup_lt_Some in Ht.
      * rewrite length_app. simpl. lia.
      * rewrite !length_app. simpl. lia.
Qed.

Lemma fill_header_overlay (hs : list CellValue) :
  ∀ c t done todo,
    t !! 0 = Some (done ++ todo) →
    length done = c →
    length hs ≤ length todo →
    fill_header c hs t = Ok (<[0 := done ++ overlay header_cell hs todo]> t).
Proof.
  induction hs as [|h hs IH]; intros c t done todo Ht Hc Hlen; simpl.
  - by rewrite list_insert_id.
  - destruct todo as [|cell todo]; [simpl in Hlen; lia|]. simpl in Hlen.
    rewrite (write_cell_ok 0 c _ t (done ++ cell :: todo) cell); try done.
    2:{ subst c. by rewrite list_lookup_middle. }
    simpl. subst c.
    rewrite insert_app_r_alt, Nat.sub_diag by done. simpl.
    rewrite (IH (S (length done)) _ (done ++ [header_cell h cell]) todo).
    + rewrite list_insert_insert_eq. by rewrite <- app_assoc.
    + rewrite list_lookup_insert_eq; [by rewrite <- app_assoc|].
      by apply lookup_lt_Some in Ht.
    + rewrite length_app. simpl. lia.
    + lia.
Qed.

Lemma fill_rows_fresh (n : nat) (rows : list (list CellValue)) :
  ∀ r pre,
    length pre = r →
    fill_rows n r rows (pre ++ replicate (length rows) (replicate n new_cell))
    = Ok (pre ++ (rendered_row n <$> rows)).
Proof.
  induction rows as [|row_data rows IH]; intros r pre Hr; simpl; [done|].
  unfold subscript. subst r. rewrite list_lookup_middle by done. simpl.
  rewrite (fill_row_overlay n (length pre) row_data 0 _ [] (replicate n new_cell)).
  - simpl. rewrite insert_app_r_alt, Nat.sub_diag by done. simpl.
    rewrite overlay_data_fresh.
    rewrite (cons_middle _ pre), app_assoc.
    rewrite (IH (S (length pre))); [by rewrite <- app_assoc|].
    rewrite length_app. simpl. lia.
  - by rewrite list_lookup_middle.
  - done.
  - simpl. by rewrite length_replicate.
Qed.

(** What [add_table] does once it has headers and rows. *)
Lemma add_table_rendered (slide : nat) (td : TableData)
    (hs : list CellValue) (rs : list (list CellValue)) (g : PPTXGenerator) :
  headers td = Some hs → hs ≠ [] → rows td = Some rs →
  add_table slide (Some td) g
  = Ok (add_shape slide (GraphicFrame (rendered_table hs rs)) g,
        Some (rendered_table hs rs)).
Proof.
  intros Hh Hne Hr. unfold add_table, no_headers, table_truthy.
  rewrite Hh, Hr. destruct hs as [|h hs]; [done|]. cbn [get truthy negb orb item mbind result_bind].
  rewrite Nat.add_1_r. cbn [replicate]. unfold subscript at 1. cbn [lookup list_lookup mbind result_bind].
  rewrite (fill_header_overlay (h :: hs) 0 _ [] (replicate (length (h :: hs)) new_cell));
    [|done|done|by rewrite length_replicate].
  cbn [mbind result_bind app]. rewrite overlay_header_fresh.
  change (<[0:=?x]> (?y :: ?l)) with (x :: l).
  pose proof (fill_rows_fresh (length (h :: hs)) rs 1
                [(λ h0, header_cell h0 new_cell) <$> h :: hs] eq_refl) as Hrows.
  cbn [app] in Hrows. rewrite Hrows.
  reflexivity.
Qed.

End TableFacts.




(** A dict without headers renders nothing, whatever else it holds. *)
Lemma add_table_no_headers (slide : nat) (td : TableData) (g : PPTXGenerator) :
  headers td = None ∨ headers td = Some [] →
  add_table slide (Some td) g = Ok (g, None).
Proof.
  unfold add_table, no_headers, table_truthy.
  intros [-> | ->]; simpl; [by destruct (rows td) | done].
Qed.

(** C7. When the table value is absent, or is a dict without headers (the
    empty dict among them), or its header list is empty, [add_table]
    returns [None] normally and the presentation is left as it was: no
    shape is created, whatever the rest of the dict holds. *)
Theorem add_table_without_headers
    (slide : nat) (table_data : option TableData) (g : PPTXGenerator) :
  table_data = None
  ∨ (∃ td, table_data = Some td ∧ (headers td = None ∨ headers td = Some [])) →
  add_table slide table_data g = Ok (g, None).
Proof.
  intros [-> | (td & -> & Hh)]; [done|]. by apply add_table_no_headers.
Qed.

(** No table value, the empty dict, rows without headers, and an empty
    header list. *)
Lemma add_table_without_headers_witness :
  add_table 0 None init = Ok (init, None)
  ∧ add_table 0 (Some {| headers := None; rows := None |}) init = Ok (init, None)
  ∧ add_table 0 (Some {| headers := None; rows := Some [[Some "1"]] |}) init
    = Ok (init, None)
  ∧ add_table 0 (Some {| headers := Some []; rows := None |}) init = Ok (init, None).
Proof.
  split; [|split; [|split]].
  - apply (add_table_without_headers 0 None init). left. reflexivity.
  - apply (add_table_without_headers 0 (Some {| headers := None; rows := None |}) init).
    right. eexists. split; [reflexivity|]. left. reflexivity.
  - apply (add_table_without_headers 0
             (Some {| headers := None; rows := Some [[Some "1"]] |}) init).
    right. eexists. split; [reflexivity|]. left. reflexivity.
  - apply (add_table_without_headers 0 (Some {| headers := Some []; rows := None |}) init).
    right. eexists. split; [reflexivity|]. right. reflexivity.
Defined.



(** * The slide builders *)

Section BuilderFacts.

Import Py.

(** A shape added to the slide just created lands on that slide. *)
Lemma add_shape_last (slides : list Slide) (shapes : Slide) (sh : Shape) (k : nat) :
  add_shape (length slides) sh {| prs := slides ++ [shapes]; answer_counter := k |}
  = {| prs := slides ++ [shapes ++ [sh]]; answer_counter := k |}.
Proof.
  unfold add_shape. simpl. f_equal.
  replace (length slides) with (length slides + 0) by lia.
  by rewrite alter_app_r.
Qed.

Lemma create_passage_slide_appends (passage_text : string) (g : PPTXGenerator) :
  create_passage_slide passage_text g = with_slide g (passage_slide passage_text).
Proof.
  unfold create_passage_slide, create_blank_slide, add_text_box. simpl.
  by rewrite add_shape_last.
Qed.

Lemma create_answer_slide_appends (answer_text : string) (g : PPTXGenerator) :
  create_answer_slide answer_text g
  = {| prs := prs g ++ [answer_slide (answer_counter g) answer_text];
       answer_counter := answer_counter g + 1 |}.
Proof.
  unfold create_answer_slide, create_blank_slide, add_text_box. simpl.
  by rewrite add_shape_last.
Qed.

(** [add_table] either fails, or adds nothing, or adds one table; which
    one, and which table, depends on the table value alone. *)
Lemma add_table_cases (table_data : option TableData) :
  (∃ e, ∀ slide g, add_table slide table_data g = Raise e)
  ∨ (∀ slide g, add_table slide table_data g = Ok (g, None))
  ∨ (∃ t, ∀ slide g,
        add_table slide table_data g = Ok (add_shape slide (GraphicFrame t) g, Some t)).
Proof.
  destruct table_data as [td|]; [|right; left; done].
  destruct (headers td) as [[|h hs]|] eqn:Hh.
  - right; left. intros. apply add_table_no_headers. eauto.
  - destruct (rows td) as [rs|] eqn:Hr.
    + right; right. eexists. intros. by eapply add_table_rendered.
    + left. exists (KeyError "rows"). intros.
      unfold add_table, no_headers, table_truthy. by rewrite Hh, Hr.
  - right; left. intros. apply add_table_no_headers. eauto.
Qed.

(** The question builder either fails or adds one slide, the same whatever
    the presentation already holds, and leaves the answer counter alone. *)
Lemma create_question_slide_cases (question_data : Content) (question_number : string) :
  (∃ e, ∀ g, create_question_slide question_data question_number g = Raise e)
  ∨ (∃ s, ∀ g, create_question_slide question_data question_number g
               = Ok (with_slide g s)).
Proof.
  unfold create_question_slide, create_blank_slide, add_text_box, with_slide.
  destruct (is_options_table (table question_data) (get (options question_data) []))
    as [is_options|e]; [|left; by exists e].
  cbn [mbind result_bind get fst snd].
  destruct (has_table (table question_data) && negb is_options).
  - destruct (add_table_cases (table question_data)) as [[e He]|[Hnone|[t Ht]]].
    + left. exists e. intros g. by rewrite add_shape_last, He.
    + right. eexists. intros g. by rewrite add_shape_last, Hnone.
    + right. eexists. intros g. rewrite add_shape_last, Ht. simpl.
      by rewrite add_shape_last.
  - right. eexists. intros g. by rewrite add_shape_last.
Qed.

End BuilderFacts.

(** * The options-table rule *)

Section OptionsTable.

Import Py.

Local Arguments lower_char : simpl never.
Local Arguments isspace : simpl never.
Local Arguments isalpha_char : simpl never.

(** Lower-casing never turns a character into whitespace. *)
Lemma lower_char_space (a : ascii) :
  isspace (lower_char a) = false → isspace a = false.
Proof. destruct a as [[] [] [] [] [] [] [] []]; vm_compute; done. Qed.

Lemma rstrip_nonspace (c : ascii) (s : string) :
  isspace c = false → ∃ t, rstrip (String c s) = String c t.
Proof.
  intros Hc. simpl. destruct (rstrip s); rewrite ?Hc; eauto.
Qed.

Lemma rstrip_cons (c : ascii) (s : string) :
  rstrip s ≠ "" → rstrip (String c s) = String c (rstrip s).
Proof. intros H. simpl. by destruct (rstrip s). Qed.

(** If the first and third characters are not whitespace, stripping
    leaves the first three characters alone. *)
Lemma strip_keeps_three (a b c : ascii) (rest : string) :
  isspace a = false → isspace c = false →
  slice_to (strip (String a (String b (String c rest)))) 3
  = String a (String b (String c "")).
Proof.
  intros Ha Hc. unfold strip. cbn [lstrip]. rewrite Ha.
  destruct (rstrip_nonspace c rest Hc) as [t Ht].
  rewrite (rstrip_cons a), (rstrip_cons b), Ht; [|by rewrite Ht|].
  - unfold slice_to. simpl. by rewrite substring_zero.
  - rewrite (rstrip_cons b), Ht; [done | by rewrite Ht].
Qed.

(** The label [match_row] takes from an option is its first three
    characters whenever these restate a parenthesized label. *)
Lemma option_label_is_head (letter : ascii) (option_i : string) :
  lower (String "(" (String letter (String ")" ""))) = lower (slice_to option_i 3) →
  (if 3 <=? len option_i then slice_to (strip option_i) 3 else "")
  = slice_to option_i 3.
Proof.
  destruct option_i as [|a [|b [|c rest]]]; try discriminate.
  unfold slice_to at 1 3. cbn [String.substring lower len String.length Nat.leb].
  intros H. injection H as Ha _ Hc _.
  rewrite strip_keeps_three; [by rewrite substring_zero| |].
  - apply lower_char_space. by rewrite <- Ha.
  - apply lower_char_space. by rewrite <- Hc.
Qed.

Lemma restates_option_matches (row : list CellValue) (option_i : string) :
  restates_option row option_i = true → row_matches row option_i = true.
Proof.
  unfold restates_option, row_matches. destruct row as [|row0 row]; [done|].
  cbv zeta. destruct (strip (str row0)) as [|a [|letter [|b [|? ?]]]]; try done.
  intros H. apply andb_prop in H as [H Heq].
  apply andb_prop in H as [H Hb]. apply andb_prop in H as [Ha Hl].
  apply Ascii.eqb_eq in Ha as ->. apply Ascii.eqb_eq in Hb as ->.
  apply String.eqb_eq in Heq. rewrite (option_label_is_head letter option_i Heq).
  rewrite Heq, String.eqb_refl, andb_true_r.
  unfold isalpha, slice, endswith, slice_from.
  cbn [startswith len String.length Nat.leb Nat.sub String.substring nonempty
         all_chars andb].
  rewrite Hl. reflexivity.
Qed.

Lemma match_row_ok (options : list string) (i : nat) (row : list CellValue)
    (matches : nat) (option_i : string) :
  options !! i = Some option_i →
  match_row options i row matches
  = Ok (if row_matches row option_i then matches + 1 else matches).
Proof.
  intros Hi. unfold match_row, row_matches. destruct row as [|row0 row]; [done|].
  cbv zeta. unfold subscript. rewrite Hi.
  by destruct (startswith (strip (str row0)) "(" && (3 <=? len (strip (str row0)))
            && isalpha (slice (strip (str row0)) 1 2)
            && endswith (strip (str row0)) ")").
Qed.

(** The loop counts at least the rows that restate their option, and no
    subscript fails while rows are not more than options. *)
Lemma count_matches_lower_bound (options : list string) (table_rows : list (list CellValue)) :
  ∀ (i : nat) (later : list string) (matches : nat),
    drop i options = later →
    length table_rows ≤ length later →
    ∃ total, count_matches options i table_rows matches = Ok total
             ∧ matches + restated_rows table_rows later ≤ total.
Proof.
  induction table_rows as [|row table_rows IH]; intros i later matches Hdrop Hlen; simpl.
  - exists matches. split; [done | lia].
  - destruct later as [|option_i later]; [simpl in Hlen; lia|].
    assert (options !! i = Some option_i) as Hi.
    { rewrite <- (Nat.add_0_r i), <- lookup_drop, Hdrop. done. }
    rewrite (match_row_ok options i row matches option_i Hi). simpl.
    destruct (IH (S i) later (if row_matches row option_i then matches + 1 else matches))
      as (total & Htotal & Hle).
    + rewrite (drop_S _ _ _ Hi) in Hdrop. by injection Hdrop.
    + simpl in Hlen. lia.
    + exists total. split; [done|].
      pose proof (restates_option_matches row option_i) as Himpl.
      destruct (restates_option row option_i); [rewrite Himpl in Hle by done|];
        destruct (row_matches row option_i); lia.
Qed.

End OptionsTable.

Lemma is_options_table_restated (td : TableData) (hs : list CellValue)
    (rs : list (list CellValue)) (opts : list string) :
  opts ≠ [] → headers td = Some hs → hs ≠ [] → rows td = Some rs →
  length rs = length opts →
  3 * length rs ≤ 4 * restated_rows rs opts →
  has_table (Some td) = true ∧ is_options_table (Some td) opts = Ok true.
Proof.
  intros Hopts Hh Hhs Hr Hlen Hmost.
  assert (has_table (Some td) = true) as Hhas.
  { unfold has_table, table_truthy. rewrite Hh. by destruct hs. }
  split; [done|]. unfold is_options_table. rewrite Hhas.
  destruct opts as [|o opts]; [done|]. cbn [truthy andb mbind option_bind get].
  rewrite Hr. cbn [get]. destruct rs as [|row rs]; [done|]. cbn [truthy andb].
  rewrite Hlen, Nat.eqb_refl.
  destruct (count_matches_lower_bound (o :: opts) (row :: rs) 0 (o :: opts) 0)
    as (total & -> & Hle); [done | lia |].
  cbn [mbind result_bind]. f_equal. apply Nat.leb_le. lia.
Qed.

(** C1 (amended). A question slide whose content has options and a table
    with headers, as many rows as options, and at least three quarters of
    the rows restating the option at their index (trimmed first cell of the
    shape ["("] letter [")"], equal case aside to the option's first three
    characters), is built without its table: the slide is the text block
    alone, at full height. *)
Theorem options_table_suppressed
    (question_data : Content) (question_number : string) (g : PPTXGenerator)
    (opts : list string) (td : TableData) (hs : list CellValue)
    (rs : list (list CellValue)) :
  options question_data = Some opts → opts ≠ [] →
  table question_data = Some td →
  headers td = Some hs → hs ≠ [] →
  rows td = Some rs →
  length rs = length opts →
  3 * length rs ≤ 4 * restated_rows rs opts →
  create_question_slide question_data question_number g
  = Ok (with_slide g (text_only_slide question_data question_number)).
Proof.
  intros Ho Hopts Ht Hh Hhs Hr Hlen Hmost.
  destruct (is_options_table_restated td hs rs opts) as [Hhas His]; try done.
  unfold create_question_slide, create_blank_slide, add_text_box.
  rewrite Ho, Ht. cbn [get]. rewrite His. cbn [mbind result_bind].
  rewrite Hhas. cbn [negb andb get]. by rewrite add_shape_last.
Qed.

(** Rows ["(a)"], ["(b)"] next to the options ["(a) x"], ["(b) y"]: the
    slide shows the question and the two option lines, and no table. *)
Lemma options_table_suppressed_witness :
  create_question_slide scenario_D_parenthesized "Q1" init
  = Ok (with_slide init (text_only_slide scenario_D_parenthesized "Q1"))
  ∧ text_only_slide scenario_D_parenthesized "Q1"
    = [TextBox TEXTBOX_HEIGHT
         [{| alignment := Some LEFT; space_after := Some 8; space_before := Some 0;
             runs := [label_run "Q1. " (Some 25); body_run "Pick one" (Some 25) false] |};
          {| alignment := Some LEFT; space_after := Some 8; space_before := Some 0;
             runs := [body_run " " (Some 25) false] |};
          {| alignment := Some LEFT; space_after := Some 8; space_before := Some 0;
             runs := [body_run "(a) x" (Some 25) false] |};
          {| alignment := Some LEFT; space_after := Some 0; space_before := Some 0;
             runs := [body_run "(b) y" (Some 25) false] |}]].
Proof.
  split; [|by vm_compute].
  apply (options_table_suppressed scenario_D_parenthesized "Q1" init
           ["(a) x"; "(b) y"] scenario_D_table
           [Some "Option"; Some "Value"]
           [[Some "(a)"; Some "x"]; [Some "(b)"; Some "y"]]);
    try reflexivity; try discriminate.
  vm_compute. lia.
Defined.

(** Scenario D as the specification gives it, with the options ["a) x"]
    and ["b) y"]: no row matches (["(a)"] is compared with ["a) "]), and
    the slide carries the table under a shortened text block. *)
Lemma scenario_D_table_shown :
  create_question_slide scenario_D "Q1" init
  = Ok (with_slide init
          [TextBox TEXTBOX_HEIGHT_LESS_TABLE
             (text_box_frame (full_question scenario_D "Q1")
                (Some FONT_SIZE_QUESTION) false LEFT);
           GraphicFrame
             (rendered_table [Some "Option"; Some "Value"]
                [[Some "(a)"; Some "x"]; [Some "(b)"; Some "y"]])])
  ∧ create_question_slide scenario_D "Q1" init
    ≠ Ok (with_slide init (text_only_slide scenario_D "Q1")).
Proof.
  split; [by vm_compute|]. vm_compute. discriminate.
Qed.

(** * The assembler *)

Section AssemblerFacts.

Lemma process_slides_flat (include_answers : bool) (question_number : string)
    (slides : list SlideSpec) (g : PPTXGenerator) :
  process_slides include_answers question_number slides g
  = process_flat include_answers ((λ sd, (question_number, sd)) <$> slides) g.
Proof.
  revert g. induction slides as [|sd slides IH]; intros g; simpl; [done|].
  destruct (process_slide include_answers question_number sd g); simpl; auto.
Qed.

Lemma process_flat_app (include_answers : bool) (l1 l2 : list (string * SlideSpec))
    (g : PPTXGenerator) :
  process_flat include_answers (l1 ++ l2) g
  = process_flat include_answers l1 g ≫= process_flat include_answers l2.
Proof.
  revert g. induction l1 as [|[qn sd] l1 IH]; intros g; simpl; [done|].
  destruct (process_slide include_answers qn sd g); simpl; auto.
Qed.

Lemma process_questions_flat (include_answers : bool) (questions : list QuestionRecord)
    (g : PPTXGenerator) :
  process_questions include_answers questions g
  = process_flat include_answers (flat questions) g.
Proof.
  revert g. induction questions as [|q questions IH]; intros g; [done|].
  unfold flat in *. simpl. rewrite process_flat_app.
  unfold process_question. rewrite process_slides_flat.
  destruct (process_flat include_answers _ g); simpl; auto.
Qed.

Lemma flat_app (qs1 qs2 : list QuestionRecord) : flat (qs1 ++ qs2) = flat qs1 ++ flat qs2.
Proof. unfold flat. apply bind_app. Qed.

Lemma count_specs_app (f : SlideSpec → bool) (l1 l2 : list (string * SlideSpec)) :
  count_specs f (l1 ++ l2) = count_specs f l1 + count_specs f l2.
Proof.
  induction l1 as [|[qn sd] l1 IH]; simpl; [done|]. rewrite IH. lia.
Qed.

(** What one iteration does, by slide type. *)
Lemma process_slide_passage (include_answers : bool) (qn : string) (sd : SlideSpec)
    (g : PPTXGenerator) :
  slide_type sd = Some "passage" →
  process_slide include_answers qn sd g
  = Ok (with_slide g (passage_slide (get (passage (get (content sd) empty_content)) ""))).
Proof.
  intros H. unfold process_slide. rewrite H. simpl.
  by rewrite create_passage_slide_appends.
Qed.

Lemma process_slide_question (include_answers : bool) (qn : string) (sd : SlideSpec)
    (g : PPTXGenerator) :
  slide_type sd = Some "question" →
  process_slide include_answers qn sd g
  = create_question_slide (get (content sd) empty_content) qn g.
Proof. intros H. unfold process_slide. by rewrite H. Qed.

Lemma process_slide_answer (qn : string) (sd : SlideSpec) (g : PPTXGenerator) :
  slide_type sd = Some "answer" →
  process_slide true qn sd g
  = Ok {| prs := prs g ++ [answer_slide (answer_counter g)
                             (get (answer_text (get (content sd) empty_content)) "")];
          answer_counter := answer_counter g + 1 |}.
Proof.
  intros H. unfold process_slide. rewrite H. simpl.
  by rewrite create_answer_slide_appends.
Qed.

Lemma process_slide_skipped (include_answers : bool) (qn : string) (sd : SlideSpec)
    (g : PPTXGenerator) :
  emits include_answers sd = false →
  process_slide include_answers qn sd g = Ok g.
Proof.
  unfold emits, is_passage, is_question, is_answer, process_slide.
  intros H. repeat case_decide; try done;
    repeat (rewrite bool_decide_eq_true_2 in H by done);
    repeat (rewrite bool_decide_eq_false_2 in H by done);
    simpl in H; try done.
  by destruct include_answers.
Qed.

(** A question slide that builds on a new generator builds the same slide
    on any. *)
Lemma question_builds_slide (qn : string) (sd : SlideSpec) :
  slide_type sd = Some "question" → question_builds qn sd →
  ∃ s, ∀ g, create_question_slide (get (content sd) empty_content) qn g
            = Ok (with_slide g s).
Proof.
  intros Ht Hb. destruct (Hb Ht) as [g' Hg'].
  destruct (create_question_slide_cases (get (content sd) empty_content) qn)
    as [[e He]|Hs]; [|done].
  rewrite He in Hg'. discriminate.
Qed.

Lemma slide_type_cases (include_answers : bool) (sd : SlideSpec) :
  emits include_answers sd = true →
  (slide_type sd = Some "passage" ∧ numbered include_answers sd = false)
  ∨ (slide_type sd = Some "question" ∧ numbered include_answers sd = false)
  ∨ (slide_type sd = Some "answer" ∧ include_answers = true
     ∧ numbered include_answers sd = true).
Proof.
  unfold emits, numbered, is_passage, is_question, is_answer. intros H.
  destruct (decide (slide_type sd = Some "passage")) as [Hp|Hp];
    [left; split; [done|]; by rewrite Hp|].
  destruct (decide (slide_type sd = Some "question")) as [Hq|Hq];
    [right; left; split; [done|]; by rewrite Hq|].
  rewrite (bool_decide_eq_false_2 _ Hp), (bool_decide_eq_false_2 _ Hq) in H.
  simpl in H. apply andb_prop in H as [Ha ->].
  apply bool_decide_eq_true_1 in Ha.
  right; right. by rewrite bool_decide_eq_true_2.
Qed.

(** An iteration that emits adds one slide, the one its builder makes, and
    moves the counter only for an answer. *)
Lemma process_slide_emits (include_answers : bool) (qn : string) (sd : SlideSpec)
    (g : PPTXGenerator) :
  emits include_answers sd = true → question_builds qn sd →
  ∃ s, process_slide include_answers qn sd g
       = Ok {| prs := prs g ++ [s];
               answer_counter :=
                 answer_counter g + (if numbered include_answers sd then 1 else 0) |}
       ∧ renders include_answers (answer_counter g) qn sd s.
Proof.
  intros He Hb.
  destruct (slide_type_cases include_answers sd He)
    as [[Ht ->]|[[Ht ->]|(Ht & -> & ->)]]; rewrite Nat.add_0_r || idtac.
  - eexists. split; [by apply process_slide_passage|]. left. done.
  - destruct (question_builds_slide qn sd Ht Hb) as [s Hs].
    exists s. split; [by rewrite process_slide_question, Hs|].
    right; left. done.
  - eexists. split; [by apply process_slide_answer|]. right; right. done.
Qed.

Lemma numbered_emits (include_answers : bool) (sd : SlideSpec) :
  emits include_answers sd = false → numbered include_answers sd = false.
Proof.
  unfold emits, numbered. destruct (is_answer sd && include_answers); [|done].
  by rewrite orb_true_r.
Qed.

(** The whole run: the slides added, in the order of the specs that emit,
    each the slide of its spec, answers numbered from the counter on. *)
Lemma process_flat_run (include_answers : bool) (specs : list (string * SlideSpec)) :
  Forall (λ p, question_builds p.1 p.2) specs →
  ∀ g, ∃ out,
    process_flat include_answers specs g
    = Ok {| prs := prs g ++ out;
            answer_counter :=
              answer_counter g + count_specs (numbered include_answers) specs |}
    ∧ length out = count_specs (emits include_answers) specs
    ∧ ∀ pre qn sd post,
        specs = pre ++ (qn, sd) :: post →
        emits include_answers sd = true →
        ∃ s, out !! count_specs (emits include_answers) pre = Some s
             ∧ renders include_answers
                 (answer_counter g + count_specs (numbered include_answers) pre)
                 qn sd s.
Proof.
  induction 1 as [|[qn0 sd0] specs Hb0 Hb IH]; intros g.
  - exists []. simpl. rewrite app_nil_r, Nat.add_0_r. destruct g.
    split; [done|]. split; [done|]. intros [|? ?] ? ? ? ?; discriminate.
  - simpl in Hb0. simpl. destruct (emits include_answers sd0) eqn:He.
    + destruct (process_slide_emits include_answers qn0 sd0 g He Hb0)
        as (s0 & -> & Hr0).
      destruct (IH {| prs := prs g ++ [s0];
                      answer_counter :=
                        answer_counter g
                        + (if numbered include_answers sd0 then 1 else 0) |})
        as (out & Hrun & Hlen & Hat).
      exists (s0 :: out). simpl in *. rewrite Hrun.
      split; [by rewrite <- app_assoc, Nat.add_assoc|].
      split; [by rewrite Hlen|].
      intros [|[qn1 sd1] pre] qn sd post Heq Hemit; simpl in Heq;
        injection Heq as -> -> ->.
      * simpl. rewrite Nat.add_0_r. eauto.
      * simpl. rewrite He. simpl.
        destruct (Hat pre qn sd post eq_refl Hemit) as (s & Hs & Hr).
        exists s. split; [done|]. by rewrite Nat.add_assoc.
    + rewrite (process_slide_skipped include_answers qn0 sd0 g He).
      rewrite (numbered_emits include_answers sd0 He). simpl.
      destruct (IH g) as (out & Hrun & Hlen & Hat).
      exists out. split; [done|]. split; [done|].
      intros [|[qn1 sd1] pre] qn sd post Heq Hemit; simpl in Heq;
        injection Heq as -> -> ->.
      * congruence.
      * simpl. rewrite He, (numbered_emits include_answers sd1 He). simpl.
        apply (Hat pre qn sd post eq_refl Hemit).
Qed.

End AssemblerFacts.

(** * The label of an answer slide *)

Section AnswerLabel.

Import Py.

(** Decimal numerals are made of digits. *)
Lemma pretty_N_char_digit (y : N) : isdigit_char (pretty_N_char y) = true.
Proof. unfold pretty_N_char. by repeat case_match. Qed.

Lemma pretty_N_go_digits (x : N) :
  ∀ s, all_chars isdigit_char s = true →
       all_chars isdigit_char (pretty_N_go x s) = true.
Proof.
  induction (N.lt_wf_0 x) as [x _ IH]; intros s Hs.
  destruct (decide (0 < x)%N) as [Hx|Hx].
  - rewrite pretty_N_go_step by done. apply IH; [by apply N.div_lt|].
    simpl. by rewrite pretty_N_char_digit.
  - replace x with 0%N by lia. by rewrite pretty_N_go_0.
Qed.

Lemma pretty_N_go_nonempty (x : N) :
  ∀ s, nonempty s = true → nonempty (pretty_N_go x s) = true.
Proof.
  induction (N.lt_wf_0 x) as [x _ IH]; intros s Hs.
  destruct (decide (0 < x)%N) as [Hx|Hx].
  - rewrite pretty_N_go_step by done. apply IH; [by apply N.div_lt | done].
  - replace x with 0%N by lia. by rewrite pretty_N_go_0.
Qed.

Lemma pretty_nat_isdigit (k : nat) : isdigit (pretty k) = true.
Proof.
  unfold pretty, pretty_nat, pretty, pretty_N, isdigit.
  destruct (decide (N.of_nat k = 0%N)) as [_|Hk]; [done|].
  rewrite pretty_N_go_digits by done. rewrite andb_true_r.
  rewrite pretty_N_go_step by lia. by apply pretty_N_go_nonempty.
Qed.

Lemma digits_no_newline (s : string) :
  all_chars isdigit_char s = true → count newline s = 0.
Proof.
  induction s as [|c s IH]; simpl; [done|].
  intros [Hc Hs]%andb_prop. rewrite (IH Hs).
  destruct (Ascii.eqb_spec c newline) as [->|]; [done | done].
Qed.

Lemma count_append (ch : ascii) (s t : string) :
  count ch (s +:+ t) = count ch s + count ch t.
Proof.
  induction s as [|c s IH]; [done|]. rewrite append_cons. simpl. rewrite IH. lia.
Qed.

(** The first line of [p + text] is [p] and the first line of [text]. *)
Lemma split_append_head (sep : ascii) (p text : string) :
  count sep p = 0 →
  ∃ l ls, split sep text = l :: ls ∧ split sep (p +:+ text) = (p +:+ l) :: ls.
Proof.
  intros Hp. destruct (split sep text) as [|l ls] eqn:E;
    [by destruct (split_not_nil sep text)|].
  exists l, ls. split; [done|].
  induction p as [|c p IH]; [done|]. rewrite append_cons. simpl in *.
  destruct (Ascii.eqb c sep); [done|]. by rewrite IH.
Qed.

(** Stripping on the right passes over a prefix when what follows does
    not vanish. *)
Lemma rstrip_append (p s : string) :
  rstrip s ≠ "" → rstrip (p +:+ s) = p +:+ rstrip s.
Proof.
  intros Hs. induction p as [|c p IH]; [done|].
  rewrite !append_cons, rstrip_cons; rewrite IH; [done|].
  by destruct p.
Qed.

(** The first line of an answer slide, stripped: the label [Ans<k>], then
    a remainder that opens with a period. *)
Lemma answer_line_stripped (k : nat) (l : string) :
  ∃ t, strip ("Ans" +:+ pretty k +:+ ". " +:+ l)
       = ("Ans" +:+ pretty k) +:+ String "." t.
Proof.
  destruct (rstrip_nonspace "." (" " +:+ l) eq_refl) as [t Ht].
  exists t. unfold strip.
  change ("Ans" +:+ pretty k +:+ ". " +:+ l)
    with (String "A" ("ns" +:+ pretty k +:+ String "." (" " +:+ l))).
  cbn [lstrip]. change (isspace "A") with false. cbv iota.
  change (String "A" ("ns" +:+ pretty k +:+ String "." (" " +:+ l)))
    with ("Ans" +:+ pretty k +:+ String "." (" " +:+ l)).
  rewrite <- append_assoc, rstrip_append; rewrite Ht; done.
Qed.

(** An answer slide is one text box whose first paragraph opens with the
    bold label [Ans<k>] and its period. *)
Lemma answer_slide_label (k : nat) (text : string) :
  ∃ (p : Paragraph) (pars : list Paragraph) (sep : string) (tail : list Run),
    answer_slide k text = [TextBox TEXTBOX_HEIGHT (p :: pars)]
    ∧ runs p = label_run (("Ans" +:+ pretty k) +:+ sep) (Some FONT_SIZE_ANSWER) :: tail
    ∧ (sep = ". " ∨ sep = ".").
Proof.
  unfold answer_slide. rewrite text_box_frame_lines.
  destruct (split_append_head newline ("Ans" +:+ pretty k +:+ ". ") text)
    as (l & ls & Hsplit & Hhead).
  { pose proof (pretty_nat_isdigit k) as [_ Hd]%andb_prop.
    rewrite !count_append, (digits_no_newline _ Hd). reflexivity. }
  rewrite !append_assoc in Hhead. rewrite Hhead.
  destruct (answer_line_stripped k l) as [t Ht].
  pose proof (numbered_line_runs ("Ans" +:+ pretty k +:+ ". " +:+ l) "Ans" (pretty k)
                (String "." t) (Some FONT_SIZE_ANSWER) false
                (or_intror eq_refl) (pretty_nat_isdigit k) eq_refl Ht) as Hruns.
  rewrite imap_cons. cbv zeta in Hruns.
  destruct (nonempty _) in Hruns.
  - eexists _, _, ". ", _. split; [reflexivity|]. split; [exact Hruns | by left].
  - destruct (startswith _ _) in Hruns.
    + eexists _, _, ".", _. split; [reflexivity|]. split; [exact Hruns | by right].
    + eexists _, _, ". ", _. split; [reflexivity|]. split; [exact Hruns | by left].
Qed.

End AnswerLabel.

(** * [generate] *)

Section GenerateFacts.

Lemma is_options_table_total (table : option TableData) (options : list string) :
  ∃ b, is_options_table table options = Ok b.
Proof.
  unfold is_options_table.
  destruct (has_table table && truthy options); [|eauto].
  match goal with |- context [truthy ?r && _] => generalize r end.
  intros table_rows.
  destruct (truthy table_rows); [|simpl; eauto]. simpl.
  destruct (length table_rows =? length options) eqn:E; [|eauto].
  apply Nat.eqb_eq in E.
  destruct (count_matches_lower_bound options table_rows 0 options 0)
    as (total & -> & _); [done | lia |].
  simpl. eauto.
Qed.

(** With ['rows'] in its table, if it has one, a question slide builds. *)
Lemma create_question_slide_total (question_data : Content) (question_number : string) :
  (∀ td, table question_data = Some td → is_Some (rows td)) →
  ∃ s, ∀ g, create_question_slide question_data question_number g = Ok (with_slide g s).
Proof.
  intros Hrows.
  destruct (create_question_slide_cases question_data question_number)
    as [[e He]|Hs]; [|done].
  exfalso. specialize (He init). revert He.
  unfold create_question_slide, create_blank_slide, add_text_box.
  destruct (is_options_table_total (table question_data)
              (get (options question_data) [])) as [b ->].
  cbn [mbind result_bind get fst snd].
  destruct (has_table (table question_data) && negb b) eqn:E; [|done].
  apply andb_prop in E as [Hhas _]. unfold has_table in Hhas.
  destruct (table question_data) as [td|] eqn:Ht; [|done].
  destruct (Hrows td eq_refl) as [rs Hrs].
  destruct (headers td) as [[|h hs]|] eqn:Hh;
    try (by rewrite andb_false_r in Hhas).
  by rewrite (add_table_rendered _ td (h :: hs) rs).
Qed.

Lemma rows_present_buildable (questions : list QuestionRecord) :
  rows_present questions → buildable questions.
Proof.
  intros Hrows. apply Forall_forall. intros [qn sd] Hin Ht. simpl in *.
  destruct (create_question_slide_total (get (content sd) empty_content) qn)
    as [s Hs]; [|rewrite Hs; eauto].
  intros td Htd. destruct (content sd) as [c|] eqn:Hc; [|done].
  by apply (Hrows qn sd c td).
Qed.

Lemma flat_cons (q : QuestionRecord) (questions : list QuestionRecord) :
  flat (q :: questions)
  = ((λ sd, (get (question_number q) "Q?", sd)) <$> get (slides q) [])
    ++ flat questions.
Proof. reflexivity. Qed.

Lemma process_flat_skip (include_answers : bool) (l1 l2 : list (string * SlideSpec))
    (qn : string) (sd : SlideSpec) (g : PPTXGenerator) :
  (∀ g', process_slide include_answers qn sd g' = Ok g') →
  process_flat include_answers (l1 ++ (qn, sd) :: l2) g
  = process_flat include_answers (l1 ++ l2) g.
Proof.
  intros Hskip. rewrite !process_flat_app.
  destruct (process_flat include_answers l1 g) as [g1|e]; [|done].
  simpl. by rewrite Hskip.
Qed.

Lemma generate_run (questions : list QuestionRecord) (output_file : string)
    (include_answers : bool) (g : PPTXGenerator) (fs : gmap string File) :
  buildable questions →
  ∃ new,
    generate questions output_file include_answers g fs
    = Ok ({| prs := prs g ++ new;
             answer_counter :=
               answer_counter g
               + count_specs (numbered include_answers) (flat questions) |},
          <[output_file := Pptx (prs g ++ new)]> fs)
    ∧ length new = count_specs (emits include_answers) (flat questions)
    ∧ ∀ pre qn sd post,
        flat questions = pre ++ (qn, sd) :: post →
        emits include_answers sd = true →
        ∃ s, new !! count_specs (emits include_answers) pre = Some s
             ∧ renders include_answers
                 (answer_counter g + count_specs (numbered include_answers) pre)
                 qn sd s.
Proof.
  intros Hb. destruct (process_flat_run include_answers (flat questions) Hb g)
    as (new & Hrun & Hlen & Hat).
  exists new. unfold generate.
  by rewrite process_questions_flat, Hrun.
Qed.

Lemma question_builds_dec (qn : string) (sd : SlideSpec) :
  question_builds qn sd ∨ ¬ question_builds qn sd.
Proof.
  unfold question_builds.
  destruct (decide (slide_type sd = Some "question")) as [Ht|Ht]; [|by left].
  destruct (create_question_slide (get (content sd) empty_content) qn init)
    as [g'|e]; [left; eauto|].
  right. intros H. by destruct (H Ht).
Qed.

(** A question slide that cannot be built stops the run. *)
Lemma process_flat_raises (include_answers : bool) (specs : list (string * SlideSpec)) :
  ¬ Forall (λ p, question_builds p.1 p.2) specs →
  ∀ g, ∃ e, process_flat include_answers specs g = Raise e.
Proof.
  induction specs as [|[qn sd] specs IH]; intros Hn g.
  - destruct Hn. constructor.
  - simpl. destruct (question_builds_dec qn sd) as [Hb|Hnb].
    + destruct (process_slide include_answers qn sd g) as [g1|e]; [|simpl; eauto].
      apply IH. intros Hall. apply Hn. by constructor.
    + destruct (decide (slide_type sd = Some "question")) as [Ht|Ht];
        [|destruct Hnb; by intros ?].
      rewrite (process_slide_question _ _ _ _ Ht).
      destruct (create_question_slide_cases (get (content sd) empty_content) qn)
        as [[e He]|[s Hs]].
      * rewrite He. simpl. eauto.
      * destruct Hnb. intros _. rewrite Hs. eauto.
Qed.

Lemma generate_raises (questions : list QuestionRecord) (output_file : string)
    (include_answers : bool) (g : PPTXGenerator) (fs : gmap string File) :
  ¬ buildable questions →
  ∃ e, generate questions output_file include_answers g fs = Raise e.
Proof.
  intros Hn. unfold generate. rewrite process_questions_flat.
  destruct (process_flat_raises include_answers (flat questions) Hn g) as [e ->].
  simpl. eauto.
Qed.

Lemma buildable_dec (questions : list QuestionRecord) :
  buildable questions ∨ ¬ buildable questions.
Proof.
  unfold buildable. induction (flat questions) as [|[qn sd] specs IH].
  - left. constructor.
  - destruct (question_builds_dec qn sd) as [Hb|Hnb].
    + destruct IH as [Hall|Hn]; [left; by constructor|].
      right. intros Hall. apply Hn. by inversion Hall.
    + right. intros Hall. apply Hnb. by inversion Hall.
Qed.

Lemma renders_answer (include_answers : bool) (k : nat) (qn : string)
    (sd : SlideSpec) (s : Slide) :
  slide_type sd = Some "answer" → renders include_answers k qn sd s →
  s = answer_slide k (get (answer_text (get (content sd) empty_content)) "").
Proof.
  intros Ht [[H _]|[[H _]|(_ & _ & H)]]; [congruence | congruence | done].
Qed.

Lemma count_numbered_true (specs : list (string * SlideSpec)) :
  count_specs (numbered true) specs = count_specs is_answer specs.
Proof.
  induction specs as [|[qn sd] specs IH]; simpl; [done|].
  unfold numbered at 1. by rewrite andb_true_r, IH.
Qed.

Lemma count_numbered_false (specs : list (string * SlideSpec)) :
  count_specs (numbered false) specs = 0.
Proof.
  induction specs as [|[qn sd] specs IH]; simpl; [done|].
  unfold numbered at 1. by rewrite andb_false_r, IH.
Qed.

Lemma count_emits_false (specs : list (string * SlideSpec)) :
  count_specs (emits false) specs
  = count_specs (λ sd, is_passage sd || is_question sd) specs.
Proof.
  induction specs as [|[qn sd] specs IH]; simpl; [done|].
  unfold emits at 1. by rewrite andb_false_r, orb_false_r, IH.
Qed.

Lemma is_answer_emits (sd : SlideSpec) :
  slide_type sd = Some "answer" → is_answer sd = true ∧ emits true sd = true.
Proof.
  intros H. unfold emits, is_answer. rewrite bool_decide_eq_true_2 by done.
  split; [done|]. by rewrite orb_true_r.
Qed.

End GenerateFacts.

(** Inputs written out in full are checked spec by spec. *)
Ltac solve_buildable :=
  apply rows_present_buildable;
  let Hin := fresh in let Hc := fresh in let Ht := fresh in
  intros ? ? ? ? Hin Hc Ht; vm_compute in Hin;
  repeat (apply elem_of_cons in Hin as [Hin|Hin];
          [injection Hin as -> ->; simpl in Hc; injection Hc as <-;
           discriminate Ht|]);
  by apply elem_of_nil in Hin.

(** C5. For every input, [generate] either stops on a question slide
    that cannot be built (its table has headers, is to be shown, and lacks
    ['rows']), saving nothing, or emits the slides in the order of its
    input: the slide of a spec stands at the position given by the number
    of emitting specs before it (records in sequence, slides in list
    order), and is the one the builder for its type makes (passage text;
    question content under the owning record's number; answer text, when
    answers are included); the saved file holds exactly the slides of the
    presentation.  A record with a passage, a question and an answer
    slide gives three slides in that order. *)
Theorem generate_keeps_input_order :
  (∀ (questions : list QuestionRecord) (output_file : string)
     (include_answers : bool) (g : PPTXGenerator) (fs : gmap string File),
     (¬ buildable questions
      ∧ ∃ e, generate questions output_file include_answers g fs = Raise e)
     ∨ (buildable questions
        ∧ ∃ (g' : PPTXGenerator) (new : list Slide),
            generate questions output_file include_answers g fs
            = Ok (g', <[output_file := Pptx (prs g')]> fs)
            ∧ prs g' = prs g ++ new
            ∧ length new = count_specs (emits include_answers) (flat questions)
            ∧ ∀ pre qn sd post,
                flat questions = pre ++ (qn, sd) :: post →
                emits include_answers sd = true →
                ∃ s k, new !! count_specs (emits include_answers) pre = Some s
                       ∧ renders include_answers k qn sd s))
  ∧ generate [scenario_C] "PPTs/deck.pptx" true init ∅
    = Ok ({| prs := [passage_slide "Read this.";
                     text_only_slide scenario_C_question "Q2";
                     answer_slide 1 "Paris"];
             answer_counter := 2 |},
          {[ "PPTs/deck.pptx" :=
               Pptx [passage_slide "Read this.";
                     text_only_slide scenario_C_question "Q2";
                     answer_slide 1 "Paris"] ]}).
Proof.
  split; [|by vm_compute].
  intros questions output_file include_answers g fs.
  destruct (buildable_dec questions) as [Hb|Hn];
    [right; split; [done|] | left; split; [done|]; by apply generate_raises].
  destruct (generate_run questions output_file include_answers g fs Hb)
    as (new & Hgen & Hlen & Hat).
  eexists _, new. split; [exact Hgen|]. split; [done|]. split; [done|].
  intros pre qn sd post Hflat Hemit.
  destruct (Hat pre qn sd post Hflat Hemit) as (s & Hs & Hr). eauto.
Qed.

(** The record of scenario C: its question slide stands second. *)
Lemma generate_keeps_input_order_witness :
  ∃ (g' : PPTXGenerator) (s : Slide),
    generate [scenario_C] "PPTs/deck.pptx" true init ∅
    = Ok (g', <[ "PPTs/deck.pptx" := Pptx (prs g') ]> ∅)
    ∧ length (prs g') = 3
    ∧ prs g' !! 1 = Some s
    ∧ ∀ g, create_question_slide scenario_C_question "Q2" g = Ok (with_slide g s).
Proof.
  assert (buildable [scenario_C]) as Hb by solve_buildable.
  destruct (proj1 generate_keeps_input_order [scenario_C] "PPTs/deck.pptx"
              true init ∅) as [[Hn _]|[_ (g' & new & Hgen & Hprs & Hlen & Hat)]];
    [by destruct Hn|].
  destruct (Hat [("Q2", passage_spec "Read this.")]
              "Q2" (question_spec scenario_C_question)
              [("Q2", answer_spec "Paris")] eq_refl eq_refl) as (s & k & Hs & Hr).
  exists g', s. simpl in Hprs. subst new.
  split; [exact Hgen|]. split; [exact Hlen|]. split; [exact Hs|].
  destruct Hr as [[H _]|[[_ H]|[H _]]]; [discriminate H | exact H | discriminate H].
Defined.

(** C4. In a run of a new generator with answers included, the slide of
    an answer spec is the answer slide numbered one more than the number
    of answer specs before it in the whole input (whatever else precedes
    it), and the counter ends at one more than the number of answer slides;
    with [include_answers] false the run leaves the counter where it was
    and adds slides for passages and questions only, an answer spec
    changing nothing at all.  The answer slide numbered [k] is a text box
    whose first paragraph opens with the bold run [Ans<k>] and its
    period. *)
Theorem answer_numbering :
  (∀ (questions : list QuestionRecord) (output_file : string) (fs : gmap string File)
     pre qn sd post,
     buildable questions →
     flat questions = pre ++ (qn, sd) :: post →
     slide_type sd = Some "answer" →
     ∃ g' fs',
       generate questions output_file true init fs = Ok (g', fs')
       ∧ prs g' !! count_specs (emits true) pre
         = Some (answer_slide (1 + count_specs is_answer pre)
                   (get (answer_text (get (content sd) empty_content)) ""))
       ∧ answer_counter g' = 1 + count_specs is_answer (flat questions))
  ∧ (∀ (questions : list QuestionRecord) (output_file : string)
       (g : PPTXGenerator) (fs : gmap string File),
       buildable questions →
       ∃ g' fs',
         generate questions output_file false g fs = Ok (g', fs')
         ∧ answer_counter g' = answer_counter g
         ∧ length (prs g')
           = length (prs g)
             + count_specs (λ sd, is_passage sd || is_question sd) (flat questions))
  ∧ (∀ qn sd g, slide_type sd = Some "answer" → process_slide false qn sd g = Ok g)
  ∧ (∀ (k : nat) (text : string),
       ∃ (p : Paragraph) (pars : list Paragraph) (sep : string) (tail : list Run),
         answer_slide k text = [TextBox TEXTBOX_HEIGHT (p :: pars)]
         ∧ runs p
           = label_run (("Ans" +:+ pretty k) +:+ sep) (Some FONT_SIZE_ANSWER) :: tail
         ∧ (sep = ". " ∨ sep = ".")).
Proof.
  split; [|split; [|split; [|exact answer_slide_label]]].
  - intros questions output_file fs pre qn sd post Hb Hflat Ht.
    destruct (generate_run questions output_file true init fs Hb)
      as (new & Hgen & Hlen & Hat).
    destruct (is_answer_emits sd Ht) as [_ Hemit].
    destruct (Hat pre qn sd post Hflat Hemit) as (s & Hs & Hr).
    apply (renders_answer true _ qn sd s Ht) in Hr.
    eexists _, _. split; [exact Hgen|]. simpl.
    rewrite !count_numbered_true in *. simpl in Hr. by subst s.
  - intros questions output_file g fs Hb.
    destruct (generate_run questions output_file false g fs Hb)
      as (new & Hgen & Hlen & _).
    eexists _, _. split; [exact Hgen|]. simpl.
    rewrite count_numbered_false, Nat.add_0_r, length_app, Hlen, count_emits_false.
    done.
  - intros qn sd g Ht. apply process_slide_skipped.
    unfold emits, is_passage, is_question. rewrite Ht. by rewrite andb_false_r.
Qed.

(** Scenario A followed by scenario C: the answer of the second record,
    after two questions and a passage, is the second answer slide; without
    answers the counter of a generator stays at 1 and three slides are
    added. *)
Lemma answer_numbering_witness :
  (∃ g' fs',
     generate [scenario_A; scenario_C] "PPTs/deck.pptx" true init ∅ = Ok (g', fs')
     ∧ prs g' !! 4 = Some (answer_slide 2 "Paris")
     ∧ answer_counter g' = 3)
  ∧ (∃ g' fs',
       generate [scenario_A; scenario_C] "PPTs/deck.pptx" false init ∅ = Ok (g', fs')
       ∧ answer_counter g' = 1
       ∧ length (prs g') = 3)
  ∧ process_slide false "Q1" (answer_spec "4") init = Ok init.
Proof.
  assert (buildable [scenario_A; scenario_C]) as Hb by solve_buildable.
  destruct answer_numbering as (Hwith & Hwithout & Hskip & _).
  split; [|split].
  - exact (Hwith [scenario_A; scenario_C] "PPTs/deck.pptx" ∅
             [("Q1", question_spec scenario_A_question); ("Q1", answer_spec "4");
              ("Q2", passage_spec "Read this.");
              ("Q2", question_spec scenario_C_question)]
             "Q2" (answer_spec "Paris") [] Hb eq_refl eq_refl).
  - exact (Hwithout [scenario_A; scenario_C] "PPTs/deck.pptx" init ∅ Hb).
  - exact (Hskip "Q1" (answer_spec "4") init eq_refl).
Defined.

(** C9. [generate] never resets the counter or the presentation: a second
    call on the same generator numbers its answers from where the first
    call stopped, and appends its slides to those of the first call, which
    are saved again in the second file. *)
Theorem generate_twice_continues
    (questions1 questions2 : list QuestionRecord) (output1 output2 : string)
    (include1 include2 : bool) (fs : gmap string File) :
  buildable questions1 → buildable questions2 →
  ∃ g1 fs1 g2 fs2 new,
    generate questions1 output1 include1 init fs = Ok (g1, fs1)
    ∧ generate questions2 output2 include2 g1 fs1 = Ok (g2, fs2)
    ∧ answer_counter g1 = 1 + count_specs (numbered include1) (flat questions1)
    ∧ answer_counter g2
      = answer_counter g1 + count_specs (numbered include2) (flat questions2)
    ∧ prs g2 = prs g1 ++ new
    ∧ length new = count_specs (emits include2) (flat questions2)
    ∧ fs2 !! output2 = Some (Pptx (prs g1 ++ new))
    ∧ ∀ pre qn sd post,
        flat questions2 = pre ++ (qn, sd) :: post →
        slide_type sd = Some "answer" → include2 = true →
        prs g2 !! (length (prs g1) + count_specs (emits include2) pre)
        = Some (answer_slide (answer_counter g1 + count_specs is_answer pre)
                  (get (answer_text (get (content sd) empty_content)) "")).
Proof.
  intros Hb1 Hb2.
  destruct (generate_run questions1 output1 include1 init fs Hb1)
    as (new1 & Hgen1 & _ & _).
  match type of Hgen1 with _ = Ok (?g, ?f) => set (g1 := g) in *; set (fs1 := f) in * end.
  destruct (generate_run questions2 output2 include2 g1 fs1 Hb2)
    as (new & Hgen2 & Hlen & Hat).
  eexists g1, fs1, _, _, new.
  split; [exact Hgen1|]. split; [exact Hgen2|].
  split; [done|]. split; [done|]. split; [done|]. split; [done|].
  split; [by rewrite lookup_insert_eq|].
  intros pre qn sd post Hflat Ht ->.
  destruct (is_answer_emits sd Ht) as [_ Hemit].
  destruct (Hat pre qn sd post Hflat Hemit) as (s & Hs & Hr).
  apply (renders_answer true _ qn sd s Ht) in Hr.
  rewrite count_numbered_true in Hr. subst s. cbn [prs].
  rewrite lookup_app_r by lia.
  by replace (length (prs g1) + count_specs (emits true) pre - length (prs g1))
    with (count_specs (emits true) pre) by lia.
Qed.

(** Scenario A generated twice on one generator: the second file holds
    four slides, the last one numbered [Ans2]. *)
Lemma generate_twice_continues_witness :
  ∃ g1 fs1 g2 fs2,
    generate [scenario_A] "PPTs/first.pptx" true init ∅ = Ok (g1, fs1)
    ∧ generate [scenario_A] "PPTs/second.pptx" true g1 fs1 = Ok (g2, fs2)
    ∧ answer_counter g1 = 2
    ∧ answer_counter g2 = 3
    ∧ fs2 !! "PPTs/second.pptx"
      = Some (Pptx [text_only_slide scenario_A_question "Q1"; answer_slide 1 "4";
                    text_only_slide scenario_A_question "Q1"; answer_slide 2 "4"]).
Proof.
  assert (buildable [scenario_A]) as Hb by solve_buildable.
  destruct (generate_twice_continues [scenario_A] [scenario_A]
              "PPTs/first.pptx" "PPTs/second.pptx" true true ∅ Hb Hb)
    as (g1 & fs1 & g2 & fs2 & new & Hgen1 & Hgen2 & Hc1 & Hc2 & Hprs & Hlen & Hfile & _).
  exists g1, fs1, g2, fs2.
  split; [exact Hgen1|]. split; [exact Hgen2|]. split; [exact Hc1|].
  split; [rewrite Hc2, Hc1; reflexivity|].
  rewrite Hfile, <- Hprs. vm_compute in Hgen1. injection Hgen1 as <- <-.
  vm_compute in Hgen2. injection Hgen2 as <- _. reflexivity.
Defined.

(** C10. A slide spec whose [slide_type] is missing or is none of
    ["passage"], ["question"], ["answer"] is dropped in silence: its
    iteration returns normally with the generator as it was, and
    [generate] does exactly what it does on the input without that spec. *)
Theorem unknown_slide_type_dropped
    (sd : SlideSpec) (include_answers : bool) :
  slide_type sd ≠ Some "passage" →
  slide_type sd ≠ Some "question" →
  slide_type sd ≠ Some "answer" →
  (∀ qn g, process_slide include_answers qn sd g = Ok g)
  ∧ ∀ (before after : list QuestionRecord) (q : QuestionRecord)
      (pre post : list SlideSpec) (output_file : string)
      (g : PPTXGenerator) (fs : gmap string File),
      slides q = Some (pre ++ sd :: post) →
      generate (before ++ q :: after) output_file include_answers g fs
      = generate (before ++ {| question_number := question_number q;
                               slides := Some (pre ++ post) |} :: after)
          output_file include_answers g fs.
Proof.
  intros Hp Hq Ha.
  assert (∀ qn g, process_slide include_answers qn sd g = Ok g) as Hskip.
  { intros qn g. apply process_slide_skipped.
    unfold emits, is_passage, is_question, is_answer.
    by rewrite !bool_decide_eq_false_2. }
  split; [exact Hskip|].
  intros before after q pre post output_file g fs Hslides.
  unfold generate. rewrite !process_questions_flat, !flat_app, !flat_cons.
  cbn [slides question_number]. rewrite Hslides. cbn [get].
  rewrite !fmap_app, fmap_cons, <- !app_assoc. cbn [app].
  rewrite !(app_assoc (flat before)).
  by rewrite (process_flat_skip include_answers _ _ _ sd g (Hskip _)).
Qed.

(** A spec without [slide_type], and one of type ["notes"]. *)
Lemma unknown_slide_type_dropped_witness :
  process_slide true "Q1" {| slide_type := None; content := None |} init = Ok init
  ∧ generate [{| question_number := Some "Q1";
                 slides := Some [{| slide_type := Some "notes";
                                    content := Some scenario_A_question |}] |}]
      "PPTs/deck.pptx" true init ∅
    = generate [{| question_number := Some "Q1"; slides := Some [] |}]
        "PPTs/deck.pptx" true init ∅.
Proof.
  split.
  - apply (unknown_slide_type_dropped {| slide_type := None; content := None |} true);
      discriminate.
  - apply (proj2 (unknown_slide_type_dropped
                    {| slide_type := Some "notes";
                       content := Some scenario_A_question |} true
                    ltac:(discriminate) ltac:(discriminate) ltac:(discriminate))
             [] [] {| question_number := Some "Q1";
                      slides := Some [{| slide_type := Some "notes";
                                         content := Some scenario_A_question |}] |}
             [] [] "PPTs/deck.pptx" init ∅ eq_refl).
Defined.

(** * The output file name *)

Section OutputFileFacts.

Lemma append_inj_r (t : string) :
  ∀ s s' : string, s +:+ t = s' +:+ t → s = s'.
Proof.
  assert (∀ s s' t', Py.len s = Py.len s' → s +:+ t' = s' +:+ t' → s = s') as Hsame.
  { induction s as [|c s IH]; intros [|c' s'] t' Hlen Heq; simpl in Hlen; try done.
    rewrite !append_cons in Heq. injection Heq as -> Heq. f_equal.
    injection Hlen as Hlen. by apply (IH s' t'). }
  intros s s' Heq. apply (Hsame s s' t); [|done].
  apply (f_equal Py.len) in Heq. rewrite !len_append in Heq. lia.
Qed.

(** Different counters give different names. *)
Lemma numbered_path_inj (folder base_name : string) :
  Inj (=) (=) (numbered_path folder base_name).
Proof.
  intros n m Heq. unfold numbered_path, path_join in Heq.
  do 4 apply String.app_inj in Heq.
  apply append_inj_r in Heq. by apply (inj pretty).
Qed.

Lemma path_exists_dom (fs : gmap string File) (p : string) :
  path_exists fs p = true ↔ p ∈ dom fs.
Proof.
  unfold path_exists. rewrite bool_decide_eq_true. symmetry. apply elem_of_dom.
Qed.

(** What the loop returns, and what it has seen when it gives up. *)
Lemma first_free_some (fs : gmap string File) (folder base_name : string) :
  ∀ fuel counter p,
    first_free fuel fs folder base_name counter = Some p →
    ∃ n, counter ≤ n
         ∧ p = numbered_path folder base_name n
         ∧ path_exists fs p = false
         ∧ ∀ m, counter ≤ m < n →
                path_exists fs (numbered_path folder base_name m) = true.
Proof.
  induction fuel as [|fuel IH]; intros counter p; simpl; [done|].
  destruct (path_exists fs (numbered_path folder base_name counter)) eqn:E; simpl.
  - intros H. destruct (IH _ _ H) as (n & Hn & -> & Hfree & Hbelow).
    exists n. split; [lia|]. split; [done|]. split; [done|].
    intros m Hm. destruct (decide (m = counter)) as [->|]; [done|].
    apply Hbelow. lia.
  - intros [= <-]. exists counter. split; [done|]. split; [done|]. split; [done|].
    intros m Hm. lia.
Qed.

Lemma first_free_none (fs : gmap string File) (folder base_name : string) :
  ∀ fuel counter,
    first_free fuel fs folder base_name counter = None →
    ∀ m, counter ≤ m < counter + fuel →
         path_exists fs (numbered_path folder base_name m) = true.
Proof.
  induction fuel as [|fuel IH]; intros counter; simpl; [intros; lia|].
  destruct (path_exists fs (numbered_path folder base_name counter)) eqn:E;
    simpl; [|done].
  intros H m Hm. destruct (decide (m = counter)) as [->|]; [done|].
  apply (IH _ H). lia.
Qed.

(** [size fs + 1] names cannot all be taken. *)
Lemma first_free_total (fs : gmap string File) (folder base_name : string) (counter : nat) :
  is_Some (first_free (S (size fs)) fs folder base_name counter).
Proof.
  destruct (first_free (S (size fs)) fs folder base_name counter) eqn:E; [eauto|].
  exfalso. pose proof (first_free_none fs folder base_name _ _ E) as Hall.
  set (names := numbered_path folder base_name <$> seq counter (S (size fs))).
  assert (NoDup names) as Hnd.
  { apply NoDup_fmap_2; [apply numbered_path_inj | apply NoDup_seq]. }
  assert (list_to_set names ⊆ dom fs) as Hsub.
  { intros p Hp. apply elem_of_list_to_set, list_elem_of_fmap in Hp as (m & -> & Hm).
    apply elem_of_seq in Hm. apply path_exists_dom, Hall. lia. }
  apply subseteq_size in Hsub.
  rewrite size_list_to_set, size_dom in Hsub by done.
  unfold names in Hsub. rewrite length_fmap, length_seq in Hsub. lia.
Qed.

(** [get_unique_output_filename] returns, and returns the default name or
    the first numbered name that is free. *)
Lemma get_unique_output_filename_total (fs : gmap string File) (base_name folder : string) :
  ∃ p, get_unique_output_filename fs base_name folder = Some p
       ∧ path_exists fs p = false
       ∧ (path_exists fs (path_join folder (base_name +:+ ".pptx")) = false →
          p = path_join folder (base_name +:+ ".pptx"))
       ∧ (path_exists fs (path_join folder (base_name +:+ ".pptx")) = true →
          ∃ n, 1 ≤ n ∧ p = numbered_path folder base_name n
               ∧ ∀ m, 1 ≤ m < n →
                      path_exists fs (numbered_path folder base_name m) = true).
Proof.
  unfold get_unique_output_filename.
  destruct (path_exists fs (path_join folder (base_name +:+ ".pptx"))) eqn:E; simpl.
  - destruct (first_free_total fs folder base_name 1) as [p Hp].
    destruct (first_free_some fs folder base_name _ _ _ Hp)
      as (n & Hn & -> & Hfree & Hbelow).
    eexists. split; [done|]. split; [done|]. split; [done|]. eauto.
  - eexists. split; [done|]. split; [done|]. split; [done|]. done.
Qed.

End OutputFileFacts.

(** C2 (amended). When the default path [PPTs/<base>.pptx] is taken,
    [run_step3] saves the presentation at [PPTs/<base>_<n>.pptx] for the
    least [n >= 1] whose name is free: every suffix below [n] is taken
    (larger ones may be taken too).  The path written did not exist, and
    every file that existed is left as it was. *)
Theorem run_step3_output_path
    (questions : list QuestionRecord) (pdf_name : string)
    (include_answers : bool) (fs : gmap string File) :
  questions ≠ [] →
  buildable questions →
  path_exists fs (path_join "PPTs" (pdf_name +:+ ".pptx")) = true →
  ∃ (n : nat) (fs' : gmap string File) (saved : list Slide),
    1 ≤ n
    ∧ run_step3 questions pdf_name include_answers fs
      = Some (Ok (Some (numbered_path "PPTs" pdf_name n), fs'))
    ∧ (∀ m, 1 ≤ m < n → path_exists fs (numbered_path "PPTs" pdf_name m) = true)
    ∧ path_exists fs (numbered_path "PPTs" pdf_name n) = false
    ∧ fs' !! numbered_path "PPTs" pdf_name n = Some (Pptx saved)
    ∧ ∀ p, path_exists fs p = true → fs' !! p = fs !! p.
Proof.
  intros Hne Hb Hdefault. unfold run_step3.
  destruct questions as [|q questions]; [done|]. cbn [truthy negb].
  destruct (get_unique_output_filename_total fs pdf_name "PPTs")
    as (p & -> & Hfree & _ & Hnum).
  destruct (Hnum Hdefault) as (n & Hn & -> & Hbelow).
  cbn [mbind option_bind].
  destruct (generate_run (q :: questions) (numbered_path "PPTs" pdf_name n)
              include_answers init fs Hb) as (new & -> & _).
  cbn [mbind result_bind].
  eexists n, _, _. split; [done|]. split; [done|]. split; [done|]. split; [done|].
  split; [by rewrite lookup_insert_eq|].
  intros p Hp. rewrite lookup_insert_ne; [done|]. intros <-. congruence.
Qed.

(** The folder holds [deck.pptx] and [deck_1.pptx]: scenario A is saved as
    [deck_2.pptx], and both files stay. *)
Lemma run_step3_output_path_witness :
  let fs : gmap string File :=
    {[ "PPTs/deck.pptx" := Other "old"; "PPTs/deck_1.pptx" := Pptx [] ]} in
  ∃ (fs' : gmap string File) (saved : list Slide),
    run_step3 [scenario_A] "deck" true fs = Some (Ok (Some "PPTs/deck_2.pptx", fs'))
    ∧ fs' !! "PPTs/deck_2.pptx" = Some (Pptx saved)
    ∧ fs' !! "PPTs/deck.pptx" = Some (Other "old")
    ∧ fs' !! "PPTs/deck_1.pptx" = Some (Pptx []).
Proof.
  intros fs.
  assert (buildable [scenario_A]) as Hb by solve_buildable.
  destruct (run_step3_output_path [scenario_A] "deck" true fs
              ltac:(discriminate) Hb eq_refl)
    as (n & fs' & saved & Hn & Hrun & Hbelow & Hfree & Hsaved & Hkept).
  assert (n = 2) as ->.
  { destruct n as [|[|[|n]]]; [lia| |done|].
    - vm_compute in Hfree. discriminate Hfree.
    - specialize (Hbelow 2 ltac:(lia)). vm_compute in Hbelow. discriminate Hbelow. }
  exists fs', saved. split; [exact Hrun|]. split; [exact Hsaved|].
  split; [exact (Hkept "PPTs/deck.pptx" eq_refl)
         |exact (Hkept "PPTs/deck_1.pptx" eq_refl)].
Defined.

(** The suffix chosen need not exceed those present: with [deck.pptx] and
    [deck_2.pptx] in the folder (and no [deck_1.pptx]) the name returned
    is [deck_1.pptx]. *)
Lemma unique_output_filename_fills_gap :
  ¬ (∀ (fs : gmap string File) (base_name : string) (n : nat),
       path_exists fs (path_join "PPTs" (base_name +:+ ".pptx")) = true →
       get_unique_output_filename fs base_name "PPTs"
       = Some (numbered_path "PPTs" base_name n) →
       ∀ m, path_exists fs (numbered_path "PPTs" base_name m) = true → m < n).
Proof.
  intros H.
  specialize (H {[ "PPTs/deck.pptx" := Other ""; "PPTs/deck_2.pptx" := Other "" ]}
                "deck" 1 eq_refl eq_refl 2 eq_refl).
  lia.
Qed.

(** * Further properties: text frames *)

Section TextFrameProperties.

Import Py.

Lemma add_formatted_lines_appends (font_size : option nat) (bold : bool)
    (n i : nat) (lines : list string) (frame : TextFrame) :
  add_formatted_lines n i lines font_size bold frame
  = frame ++ imap (λ j line,
                     formatted_paragraph n (i + j) line font_size bold new_paragraph)
                  lines.
Proof.
  revert i frame. induction lines as [|line lines IH]; intros i frame; simpl.
  - by rewrite app_nil_r.
  - rewrite IH. unfold add_formatted_line.
    replace (length frame) with (length frame + 0) by lia.
    rewrite alter_app_r. simpl. rewrite <- app_assoc. simpl.
    rewrite Nat.add_0_r. do 2 f_equal.
    apply imap_ext. intros j x _. simpl. do 2 f_equal. lia.
Qed.


End TextFrameProperties.

(** X1. In a text box every paragraph has the alignment asked for and no
    space before it; every paragraph but the last is followed by 8 points
    of space, the last by none. *)
Theorem text_box_paragraph_spacing
    (slide : nat) (text : string) (height : option Height)
    (font_size : option nat) (bold : bool) (align : PP_ALIGN) (g : PPTXGenerator)
    (i : nat) (p : Paragraph) :
  snd (add_text_box slide text height font_size bold align g) !! i = Some p →
  alignment p = Some align
  ∧ space_before p = Some 0
  ∧ space_after p = Some (if decide (i = Py.count Py.newline text) then 0 else 8).
Proof.
  simpl. rewrite text_box_frame_lines. intros Hp.
  apply list_lookup_imap_Some in Hp as (line & Hline & ->).
  apply lookup_lt_Some in Hline. rewrite split_length in Hline |- *.
  simpl. split; [done|]. split; [done|]. f_equal.
  rewrite Nat.sub_0_r. case_decide; destruct (i <? _) eqn:E; try done.
  - apply Nat.ltb_lt in E. lia.
  - apply Nat.ltb_ge in E. lia.
Qed.

(** The two paragraphs of a two-line text. *)
Lemma text_box_paragraph_spacing_witness :
  ∃ p q,
    snd (add_text_box 0 ("one" +:+ Py.nl +:+ "two") None None false CENTER init)
    = [p; q]
    ∧ space_after p = Some 8 ∧ space_after q = Some 0
    ∧ alignment p = Some CENTER.
Proof.
  eexists _, _. split; [reflexivity|].
  pose proof (text_box_paragraph_spacing 0 ("one" +:+ Py.nl +:+ "two") None None
                false CENTER init 0 _ eq_refl) as (Ha & _ & Hp).
  pose proof (text_box_paragraph_spacing 0 ("one" +:+ Py.nl +:+ "two") None None
                false CENTER init 1 _ eq_refl) as (_ & _ & Hq).
  split; [exact Hp|]. split; [exact Hq | exact Ha].
Defined.



(** X3. [add_formatted_text] leaves the paragraphs of the frame as they
    are and appends one paragraph per line, left aligned, each with a
    single run holding the line as it is (a space for a blank line):
    unlike [add_text_box] it splits off no label. *)
Theorem add_formatted_text_appends
    (text_frame : TextFrame) (lines : list string)
    (font_size : option nat) (bold : bool) :
  lines ≠ [] →
  Forall (λ l, Py.count Py.newline l = 0) lines →
  let out := add_formatted_text text_frame (Py.join Py.nl lines) font_size bold in
  take (length text_frame) out = text_frame
  ∧ length out = length text_frame + length lines
  ∧ ∀ (i : nat) (line : string),
      lines !! i = Some line →
      ∃ p, out !! (length text_frame + i) = Some p
           ∧ alignment p = Some LEFT
           ∧ runs p = [body_run (if Py.nonempty (Py.strip line) then line else " ")
                         font_size bold].
Proof.
  intros Hne Hall. unfold add_formatted_text, Py.nl.
  rewrite split_join by done. rewrite add_formatted_lines_appends. cbv zeta.
  split; [by rewrite take_app_length|].
  split; [by rewrite length_app, length_imap|].
  intros i line Hi. eexists. rewrite lookup_app_r by lia.
  replace (length text_frame + i - length text_frame) with i by lia.
  split; [apply list_lookup_imap_Some; eauto|]. done.
Qed.

(** A labelled line and an empty one, added to a frame of one paragraph. *)
Lemma add_formatted_text_appends_witness :
  add_formatted_text cleared ("Q3 text" +:+ Py.nl +:+ "") (Some 20) true
  = [new_paragraph;
     {| alignment := Some LEFT; space_after := Some 8; space_before := Some 0;
        runs := [body_run "Q3 text" (Some 20) true] |};
     {| alignment := Some LEFT; space_after := Some 0; space_before := Some 0;
        runs := [body_run " " (Some 20) true] |}].
Proof.
  destruct (add_formatted_text_appends cleared ["Q3 text"; ""] (Some 20) true)
    as (Htake & Hlen & Hat).
  - discriminate.
  - repeat constructor.
  - destruct (Hat 0 "Q3 text" eq_refl) as (p & Hp & _ & _).
    destruct (Hat 1 "" eq_refl) as (q & Hq & _ & _).
    vm_compute in Hp, Hq. vm_compute. reflexivity.
Defined.

(** * Further properties: tables and faults *)

(** X4. The first row of a rendered table is the header row: one cell per
    header, centred, filled light grey, with one bold 18-point run holding
    the header text (the empty string for a missing or empty header).
    The cells written for the data rows carry no fill and set no weight. *)
Theorem add_table_header_row
    (slide : nat) (td : TableData) (hs : list CellValue)
    (rs : list (list CellValue)) (g : PPTXGenerator) :
  headers td = Some hs → hs ≠ [] → rows td = Some rs →
  ∃ (t : Table) (header_row : list Cell),
    add_table slide (Some td) g = Ok (add_shape slide (GraphicFrame t) g, Some t)
    ∧ t !! 0 = Some header_row
    ∧ length header_row = length hs
    ∧ (∀ (j : nat) (h : CellValue),
         hs !! j = Some h →
         header_row !! j
         = Some {| cell_alignment := Some CENTER;
                   cell_runs :=
                     [{| run_text := if Py.nonempty (get h "") then str h else "";
                         run_size := 18; run_bold := Some true |}];
                   cell_fill := Some (240, 240, 240) |})
    ∧ (∀ (i j : nat) (row : list Cell) (cell : Cell),
         0 < i → t !! i = Some row → row !! j = Some cell →
         cell_fill cell = None ∧ Forall (λ r, run_bold r = None) (cell_runs cell)).
Proof.
  intros Hh Hne Hr. eexists (rendered_table hs rs), _.
  split; [by apply add_table_rendered|]. split; [reflexivity|].
  split; [by rewrite length_fmap|]. split.
  - intros j h Hj. by rewrite list_lookup_fmap, Hj.
  - intros [|i] j row cell Hi Hrow Hcell; [lia|].
    unfold rendered_table in Hrow. simpl in Hrow.
    apply list_lookup_fmap_Some in Hrow as (row_data & -> & Hdata).
    unfold rendered_row in Hcell.
    apply lookup_app_Some in Hcell as [Hcell|[_ Hcell]].
    + apply list_lookup_fmap_Some in Hcell as (v & -> & Hv).
      split; [done|]. by repeat constructor.
    + apply lookup_replicate in Hcell as [-> _]. split; [done|]. constructor.
Qed.

(** Two headers, the second one null. *)
Lemma add_table_header_row_witness :
  ∃ (t : Table),
    add_table 0 (Some {| headers := Some [Some "Item"; None];
                         rows := Some [[Some "1"; Some "2"]] |})
      {| prs := [[]]; answer_counter := 1 |}
    = Ok ({| prs := [[GraphicFrame t]]; answer_counter := 1 |}, Some t)
    ∧ (λ c, run_text <$> cell_runs c) <$> default [] (t !! 0) = [["Item"]; [""]].
Proof.
  destruct (add_table_header_row 0
              {| headers := Some [Some "Item"; None];
                 rows := Some [[Some "1"; Some "2"]] |}
              [Some "Item"; None] [[Some "1"; Some "2"]]
              {| prs := [[]]; answer_counter := 1 |}
              eq_refl ltac:(discriminate) eq_refl)
    as (t & header_row & Hadd & _).
  exists t. split; [exact Hadd|].
  vm_compute in Hadd. injection Hadd as _ <-. reflexivity.
Defined.

Section Faults.






End Faults.





(** * Further properties: the question slide *)

Section QuestionSlideProperties.



End QuestionSlideProperties.



(** X8. A diagram description shows on the slide as the line [[Diagram]]
    and nothing else: with a non-empty description the text block is the
    one without it followed by a blank line and [[Diagram]], whatever the
    description says, so two descriptions give the same slide; an empty
    description counts as none. *)
Theorem diagram_placeholder
    (question_data : Content) (question_number : string) (d d' : string) :
  Py.nonempty d = true → Py.nonempty d' = true →
  full_question (set_diagram (Some d) question_data) question_number
  = full_question (set_diagram None question_data) question_number
    +:+ (Py.nl +:+ Py.nl +:+ Py.nl +:+ "[Diagram]")
  ∧ (∀ g, create_question_slide (set_diagram (Some d) question_data) question_number g
          = create_question_slide (set_diagram (Some d') question_data)
              question_number g)
  ∧ full_question (set_diagram (Some "") question_data) question_number
    = full_question (set_diagram None question_data) question_number.
Proof.
  intros Hd Hd'.
  assert (∀ e, Py.nonempty e = true →
            full_question (set_diagram (Some e) question_data) question_number
            = full_question (set_diagram None question_data) question_number
              +:+ (Py.nl +:+ Py.nl +:+ Py.nl +:+ "[Diagram]")) as Htext.
  { intros e He. unfold full_question, set_diagram. cbn [diagram_description
      question_text options get]. rewrite He. cbn [Py.nonempty].
    destruct (truthy (get (options question_data) [])); unfold Py.join; simpl.
    - by rewrite !append_assoc.
    - by rewrite !append_assoc. }
  split; [by apply Htext|]. split; [|done].
  intros g. unfold create_question_slide.
  rewrite (Htext d Hd), (Htext d' Hd'). reflexivity.
Qed.

(** The question of scenario A with a long description. *)
Lemma diagram_placeholder_witness :
  full_question (set_diagram (Some "A triangle ABC with a right angle at B")
                   scenario_A_question) "Q1"
  = "Q1. What is 2+2?" +:+ Py.nl +:+ Py.nl +:+ "a) 3" +:+ Py.nl +:+ "b) 4"
    +:+ Py.nl +:+ Py.nl +:+ Py.nl +:+ "[Diagram]".
Proof.
  exact (proj1 (diagram_placeholder scenario_A_question "Q1"
                  "A triangle ABC with a right angle at B" "x" eq_refl eq_refl)).
Defined.

(** * Further properties: [generate] *)

Section GenerateProperties.

Lemma process_slide_non_answer (incl incl' : bool) (qn : string) (sd : SlideSpec)
    (g : PPTXGenerator) :
  slide_type sd ≠ Some "answer" →
  process_slide incl qn sd g = process_slide incl' qn sd g.
Proof. intros H. unfold process_slide. by repeat case_decide. Qed.

Lemma process_flat_without_answers (incl : bool) (specs : list (string * SlideSpec)) :
  ∀ g, process_flat false specs g
       = process_flat incl (filter (λ p, slide_type p.2 ≠ Some "answer") specs) g.
Proof.
  induction specs as [|[qn sd] specs IH]; intros g; [done|].
  destruct (decide (slide_type sd = Some "answer")) as [Ha|Ha].
  - rewrite filter_cons_False by (simpl; auto). simpl.
    rewrite process_slide_skipped; [apply IH|].
    unfold emits, is_passage, is_question. rewrite Ha. by rewrite andb_false_r.
  - rewrite filter_cons_True by done. simpl.
    rewrite (process_slide_non_answer false incl) by done.
    destruct (process_slide incl qn sd g); simpl; [apply IH | done].
Qed.

Lemma flat_without_answers (questions : list QuestionRecord) :
  flat (without_answers <$> questions)
  = filter (λ p, slide_type p.2 ≠ Some "answer") (flat questions).
Proof.
  induction questions as [|q questions IH]; [done|].
  rewrite fmap_cons, !flat_cons, filter_app, IH. f_equal.
  unfold without_answers. simpl. destruct (slides q) as [sl|]; [|done]. simpl.
  induction sl as [|sd sl IHsl]; [done|].
  destruct (decide (slide_type sd = Some "answer")) as [Ha|Ha].
  - rewrite filter_cons_False by auto. rewrite fmap_cons.
    rewrite filter_cons_False by (simpl; auto). apply IHsl.
  - rewrite filter_cons_True by done. rewrite !fmap_cons.
    rewrite filter_cons_True by done. by rewrite IHsl.
Qed.

Lemma total_slides_of_flat (questions : list QuestionRecord) :
  total_slides_of questions = length (flat questions).
Proof.
  induction questions as [|q questions IH]; [done|].
  rewrite flat_cons, length_app, length_fmap. simpl. by rewrite IH.
Qed.

Lemma count_non_answers_flat (qn : string) (slides : list SlideSpec) :
  ∀ n, count_non_answers slides n
       = n + count_specs (λ sd, negb (is_answer sd)) ((λ sd, (qn, sd)) <$> slides).
Proof.
  induction slides as [|sd slides IH]; intros n; simpl; [lia|].
  rewrite IH. unfold is_answer.
  destruct (decide (slide_type sd = Some "answer")) as [Ha|Ha].
  - rewrite (bool_decide_eq_true_2 _ Ha). case_decide; [done|]. done.
  - rewrite (bool_decide_eq_false_2 _ Ha). case_decide; [|done].
    unfold fmap. simpl. lia.
Qed.

Lemma count_non_answer_slides_flat (questions : list QuestionRecord) :
  ∀ n, count_non_answer_slides questions n
       = n + count_specs (λ sd, negb (is_answer sd)) (flat questions).
Proof.
  induction questions as [|q questions IH]; intros n; [simpl; lia|].
  cbn [count_non_answer_slides]. rewrite IH, flat_cons, count_specs_app.
  rewrite (count_non_answers_flat (get (question_number q) "Q?")). lia.
Qed.

Lemma count_specs_length (specs : list (string * SlideSpec)) (incl : bool) :
  count_specs (emits incl) specs + count_specs unknown_type specs
  = if incl then length specs else count_specs (λ sd, negb (is_answer sd)) specs.
Proof.
  induction specs as [|[qn sd] specs IH]; simpl; [by destruct incl|].
  assert ((if emits incl sd then 1 else 0) + (if unknown_type sd then 1 else 0)
          = if incl then 1 else if negb (is_answer sd) then 1 else 0) as E.
  { unfold emits, unknown_type, is_passage, is_question, is_answer.
    destruct incl; repeat case_bool_decide; simpl; try done;
      exfalso; congruence. }
  destruct incl; simpl in *; lia.
Qed.

End GenerateProperties.

(** X9. Generating without answers is generating from the input with its
    answer slides deleted: the presentation, the counter, the file and the
    fault, if any, are the same, whether that input is then generated
    with or without answers. *)
Theorem generate_without_answers
    (questions : list QuestionRecord) (output_file : string)
    (include_answers : bool) (g : PPTXGenerator) (fs : gmap string File) :
  generate questions output_file false g fs
  = generate (without_answers <$> questions) output_file include_answers g fs.
Proof.
  unfold generate. rewrite !process_questions_flat, flat_without_answers.
  by rewrite (process_flat_without_answers include_answers).
Qed.

(** X10. [generate] composes: if a first call returns and a second call on
    the generator it leaves returns too, the second call leaves the
    generator, and writes the file, that a single call on the two inputs
    one after the other would; and a fault of the first input is the
    fault of the two together. *)
Theorem generate_concatenation
    (questions1 questions2 : list QuestionRecord) (output1 output2 : string)
    (include_answers : bool) (g : PPTXGenerator) (fs : gmap string File) :
  (∀ g1 fs1 g2 fs2,
     generate questions1 output1 include_answers g fs = Ok (g1, fs1) →
     generate questions2 output2 include_answers g1 fs1 = Ok (g2, fs2) →
     generate (questions1 ++ questions2) output2 include_answers g fs
     = Ok (g2, <[output2 := Pptx (prs g2)]> fs)
     ∧ fs2 = <[output2 := Pptx (prs g2)]> (<[output1 := Pptx (prs g1)]> fs))
  ∧ (∀ e, generate questions1 output1 include_answers g fs = Raise e →
          generate (questions1 ++ questions2) output2 include_answers g fs = Raise e).
Proof.
  unfold generate. rewrite !process_questions_flat, flat_app, process_flat_app.
  split.
  - intros g1 fs1 g2 fs2.
    destruct (process_flat include_answers (flat questions1) g) as [g1'|e];
      [|done].
    cbn [mbind result_bind]. intros [= <- <-].
    rewrite process_questions_flat.
    destruct (process_flat include_answers (flat questions2) g1') as [g2'|e];
      [|done].
    cbn [mbind result_bind]. by intros [= <- <-].
  - intros e.
    by destruct (process_flat include_answers (flat questions1) g) as [g1'|e'].
Qed.

(** Scenario A, then scenario C. *)
Lemma generate_concatenation_witness :
  ∃ g1 fs1 g2,
    generate [scenario_A] "PPTs/a.pptx" true init ∅ = Ok (g1, fs1)
    ∧ generate [scenario_A; scenario_C] "PPTs/c.pptx" true init ∅
      = Ok (g2, <[ "PPTs/c.pptx" := Pptx (prs g2) ]> ∅)
    ∧ generate [scenario_C] "PPTs/c.pptx" true g1 fs1
      = Ok (g2, <[ "PPTs/c.pptx" := Pptx (prs g2) ]>
                  (<[ "PPTs/a.pptx" := Pptx (prs g1) ]> ∅)).
Proof.
  destruct (generate [scenario_A] "PPTs/a.pptx" true init ∅) as [[g1 fs1]|e] eqn:H1;
    [|vm_compute in H1; discriminate H1].
  destruct (generate [scenario_C] "PPTs/c.pptx" true g1 fs1) as [[g2 fs2]|e] eqn:H2;
    [|vm_compute in H1; injection H1 as <- <-; vm_compute in H2; discriminate H2].
  destruct (proj1 (generate_concatenation [scenario_A] [scenario_C]
                     "PPTs/a.pptx" "PPTs/c.pptx" true init ∅) g1 fs1 g2 fs2 H1 H2)
    as [Hboth Hfs].
  exists g1, fs1, g2. split; [reflexivity|]. split; [exact Hboth|].
  by rewrite <- Hfs.
Defined.

(** X11. The slide count announced before generating ([main],
    [run_step3]) counts every slide spec, or every one that is not an
    answer when answers are excluded; [generate] then makes that many
    slides less one for each spec whose [slide_type] is none of
    ["passage"], ["question"], ["answer"], which is announced but
    dropped. *)
Theorem announced_slide_count
    (questions : list QuestionRecord) (output_file : string)
    (include_answers : bool) (fs : gmap string File) :
  buildable questions →
  ∃ g' fs',
    generate questions output_file include_answers init fs = Ok (g', fs')
    ∧ fs' !! output_file = Some (Pptx (prs g'))
    ∧ length (prs g') + count_specs unknown_type (flat questions)
      = announced_slides include_answers questions.
Proof.
  intros Hb.
  destruct (generate_run questions output_file include_answers init fs Hb)
    as (new & Hgen & Hlen & _).
  eexists _, _. split; [exact Hgen|]. split; [by rewrite lookup_insert_eq|].
  cbn [prs init app]. rewrite Hlen, count_specs_length.
  unfold announced_slides. destruct include_answers.
  - by rewrite total_slides_of_flat.
  - by rewrite count_non_answer_slides_flat.
Qed.

(** Scenario A with a slide of type ["notes"] added: three slides are
    announced, two are made. *)
Lemma announced_slide_count_witness :
  let questions :=
    [{| question_number := Some "Q1";
        slides := Some [question_spec scenario_A_question;
                        {| slide_type := Some "notes";
                           content := Some scenario_A_question |};
                        answer_spec "4"] |}] in
  announced_slides true questions = 3
  ∧ ∃ g' fs',
      generate questions "PPTs/deck.pptx" true init ∅ = Ok (g', fs')
      ∧ length (prs g') = 2.
Proof.
  intros questions. split; [reflexivity|].
  assert (buildable questions) as Hb by solve_buildable.
  destruct (announced_slide_count questions "PPTs/deck.pptx" true ∅ Hb)
    as (g' & fs' & Hgen & _ & Hcount).
  exists g', fs'. split; [exact Hgen|].
  change (count_specs unknown_type (flat questions)) with 1 in Hcount.
  change (announced_slides true questions) with 3 in Hcount. lia.
Defined.

(** * Further properties: output names *)

Section OutputProperties.

Lemma next_unused_first_free (fs : gmap string File) (pdf_name : string) :
  ∀ fuel counter,
    next_unused fuel fs pdf_name (numbered_path "PPTs" pdf_name counter) (S counter)
    = first_free fuel fs "PPTs" pdf_name counter.
Proof.
  induction fuel as [|fuel IH]; intros counter; simpl; [done|].
  destruct (path_exists fs (numbered_path "PPTs" pdf_name counter)); simpl; [|done].
  apply IH.
Qed.

(** What [run_step3] saves depends on the questions and the flag alone,
    and it saves it at a name that was free. *)
Lemma run_step3_saves (q : QuestionRecord) (questions : list QuestionRecord)
    (pdf_name : string) (include_answers : bool) :
  buildable (q :: questions) →
  ∃ saved, ∀ fs, ∃ p,
    run_step3 (q :: questions) pdf_name include_answers fs
    = Some (Ok (Some p, <[p := Pptx saved]> fs))
    ∧ path_exists fs p = false.
Proof.
  intros Hb.
  destruct (process_flat_run include_answers (flat (q :: questions)) Hb init)
    as (new & Hrun & _).
  exists (prs init ++ new). intros fs.
  destruct (get_unique_output_filename_total fs pdf_name "PPTs")
    as (p & Hp & Hfree & _).
  exists p. split; [|done]. unfold run_step3. cbn [truthy negb]. rewrite Hp.
  cbn [mbind option_bind]. unfold generate.
  by rewrite process_questions_flat, Hrun.
Qed.

End OutputProperties.


(** X13. The output name [process_pdf] of [streamlit_app.py] works out
    with its own loop is the one [get_unique_output_filename] returns for
    the folder [PPTs]. *)
Theorem streamlit_output_path_unique (fs : gmap string File) (pdf_name : string) :
  streamlit_output_path fs pdf_name = get_unique_output_filename fs pdf_name "PPTs".
Proof.
  unfold streamlit_output_path, get_unique_output_filename.
  change (next_unused (S ?f) fs pdf_name ?p 1)
    with (if path_exists fs p
          then next_unused f fs pdf_name (numbered_path "PPTs" pdf_name 1) 2
          else Some p).
  destruct (path_exists fs (path_join "PPTs" (pdf_name +:+ ".pptx"))); [|done].
  apply next_unused_first_free.
Qed.

(** X14. Running [run_step3] again on the folder a first run leaves, on
    the same questions, writes a second file beside the first: the names
    differ, the first file is not touched, and with the same
    [include_answers] the two files hold the same slides.  On an empty
    list of questions nothing is written. *)
Theorem run_step3_twice
    (questions : list QuestionRecord) (pdf_name : string)
    (include1 include2 : bool) (fs : gmap string File) :
  (questions ≠ [] → buildable questions →
   ∃ p1 fs1 p2 fs2,
     run_step3 questions pdf_name include1 fs = Some (Ok (Some p1, fs1))
     ∧ run_step3 questions pdf_name include2 fs1 = Some (Ok (Some p2, fs2))
     ∧ p1 ≠ p2
     ∧ path_exists fs p1 = false
     ∧ fs2 !! p1 = fs1 !! p1
     ∧ (∀ p, path_exists fs p = true → fs2 !! p = fs !! p)
     ∧ (include1 = include2 → fs2 !! p2 = fs2 !! p1))
  ∧ (questions = [] →
     run_step3 questions pdf_name include1 fs = Some (Ok (None, fs))).
Proof.
  split; [|by intros ->].
  intros Hne Hb. destruct questions as [|q questions]; [done|].
  destruct (run_step3_saves q questions pdf_name include1 Hb) as [saved1 Hrun1].
  destruct (run_step3_saves q questions pdf_name include2 Hb) as [saved2 Hrun2].
  destruct (Hrun1 fs) as (p1 & Hp1 & Hfree1).
  destruct (Hrun2 (<[p1 := Pptx saved1]> fs)) as (p2 & Hp2 & Hfree2).
  assert (p1 ≠ p2) as Hdiff.
  { intros <-. unfold path_exists in Hfree2.
    rewrite lookup_insert_eq in Hfree2.
    by rewrite bool_decide_eq_true_2 in Hfree2. }
  assert (path_exists fs p2 = false) as Hfree2'.
  { unfold path_exists in *. by rewrite lookup_insert_ne in Hfree2. }
  eexists p1, _, p2, _. split; [exact Hp1|]. split; [exact Hp2|].
  split; [done|]. split; [done|].
  split; [by rewrite lookup_insert_ne|].
  split.
  - intros p Hp. rewrite !lookup_insert_ne; [done | |];
      intros <-; congruence.
  - intros <-. rewrite lookup_insert_eq, lookup_insert_ne, lookup_insert_eq by done.
    destruct (Hrun2 fs) as (p & Hp & _). rewrite Hp1 in Hp.
    injection Hp as <- Hfs.
    apply (f_equal (λ m : gmap string File, m !! p1)) in Hfs.
    by rewrite !lookup_insert_eq in Hfs.
Qed.

(** Scenario A, twice, into an empty folder. *)
Lemma run_step3_twice_witness :
  ∃ fs1 fs2 saved,
    run_step3 [scenario_A] "deck" true ∅ = Some (Ok (Some "PPTs/deck.pptx", fs1))
    ∧ run_step3 [scenario_A] "deck" true fs1
      = Some (Ok (Some "PPTs/deck_1.pptx", fs2))
    ∧ fs2 !! "PPTs/deck.pptx" = Some (Pptx saved)
    ∧ fs2 !! "PPTs/deck_1.pptx" = Some (Pptx saved).
Proof.
  assert (buildable [scenario_A]) as Hb by solve_buildable.
  destruct (proj1 (run_step3_twice [scenario_A] "deck" true true ∅)
              ltac:(discriminate) Hb)
    as (p1 & fs1 & p2 & fs2 & H1 & H2 & Hdiff & Hfree & Hkept & _ & Hsame).
  vm_compute in H1. injection H1 as <- <-.
  vm_compute in H2. injection H2 as <- <-.
  eexists _, _, _.
  split; [vm_compute; reflexivity|]. split; [vm_compute; reflexivity|].
  split; vm_compute; reflexivity.
Defined.

(** * Further properties: [validate_questions] *)

Section ValidationProperties.

Lemma add_with_answers_0 (st : Stats) : add_with_answers 0 st = st.
Proof. destruct st. unfold add_with_answers. simpl. f_equal. lia. Qed.

Lemma add_with_answers_add (a b : nat) (st : Stats) :
  add_with_answers a (add_with_answers b st) = add_with_answers (b + a) st.
Proof. destruct st. unfold add_with_answers. simpl. f_equal. lia. Qed.

(** The slide loop changes the statistics by the number of answer slides
    only. *)
Lemma check_slides_stats (qn : string) (slides : list SlideSpec) :
  ∀ flags stats,
    (check_slides slides (flags, stats)).2
    = add_with_answers
        (count_specs is_answer ((λ sd, (qn, sd)) <$> slides)) stats.
Proof.
  induction slides as [|sd slides IH]; intros flags stats.
  - simpl. by rewrite add_with_answers_0.
  - cbn [check_slides check_slide]. rewrite IH. rewrite fmap_cons.
    cbn [count_specs]. unfold is_answer at 2.
    case_decide.
    + rewrite bool_decide_eq_true_2 by done. by rewrite add_with_answers_add.
    + rewrite bool_decide_eq_false_2 by done. done.
Qed.

Lemma validate_question_issues (i : nat) (q : ParsedQuestion)
    (issues : list string) (stats : Stats) :
  (validate_question i q (issues, stats)).1 = issues ++ question_issues i q.
Proof.
  unfold validate_question, question_issues.
  destruct (question_number (record q)), (question_type q),
    (slides (record q)) as [sl|]; simpl;
    try destruct (check_slides sl _); simpl;
    rewrite ?app_nil_r, <- ?app_assoc; done.
Qed.

Lemma validate_question_stats (i : nat) (q : ParsedQuestion)
    (issues : list string) (stats : Stats) :
  let stats' := (validate_question i q (issues, stats)).2 in
  total_questions stats' = total_questions stats
  ∧ total_slides stats'
    = total_slides stats
      + match slides (record q) with Some sl => length sl | None => 0 end
  ∧ questions_with_answers stats'
    = questions_with_answers stats + count_specs is_answer (flat [record q])
  ∧ questions_with_options stats' ≤ questions_with_options stats + 1
  ∧ questions_with_tables stats' ≤ questions_with_tables stats + 1
  ∧ questions_with_diagrams stats' ≤ questions_with_diagrams stats + 1
  ∧ passage_based stats' ≤ passage_based stats + 1.
Proof.
  unfold validate_question. rewrite flat_cons. unfold flat at 1.
  cbn [mbind list_bind]. rewrite app_nil_r.
  destruct (slides (record q)) as [sl|] eqn:Hsl.
  - pose proof (check_slides_stats (get (question_number (record q)) "Q?") sl
                  {| has_options := false; has_table_flag := false;
                     has_diagram := false |}
                  (add_total_slides (length sl) stats)) as Hcheck.
    destruct (check_slides sl _) as [flags stats1]. simpl in Hcheck. subst stats1.
    cbn [get]. cbv zeta.
    destruct (question_number (record q)), (question_type q);
      destruct (has_options flags), (has_table_flag flags), (has_diagram flags);
      repeat case_decide; simpl; repeat split; lia.
  - destruct (question_number (record q)), (question_type q); simpl;
      repeat split; lia.
Qed.

Lemma validate_from_issues (questions : list ParsedQuestion) :
  ∀ i issues stats,
    (validate_from i questions (issues, stats)).1
    = issues ++ issues_from i questions.
Proof.
  induction questions as [|q questions IH]; intros i issues stats.
  - simpl. by rewrite app_nil_r.
  - cbn [validate_from issues_from].
    destruct (validate_question i q (issues, stats)) as [issues1 stats1] eqn:E.
    rewrite IH. pose proof (validate_question_issues i q issues stats) as Hq.
    rewrite E in Hq. simpl in Hq. rewrite Hq. by rewrite <- app_assoc.
Qed.

Lemma validate_from_stats (questions : list ParsedQuestion) :
  ∀ i issues stats,
    let stats' := (validate_from i questions (issues, stats)).2 in
    total_questions stats' = total_questions stats
    ∧ total_slides stats'
      = total_slides stats + total_slides_of (record <$> questions)
    ∧ questions_with_answers stats'
      = questions_with_answers stats
        + count_specs is_answer (flat (record <$> questions))
    ∧ questions_with_options stats' ≤ questions_with_options stats + length questions
    ∧ questions_with_tables stats' ≤ questions_with_tables stats + length questions
    ∧ questions_with_diagrams stats'
      ≤ questions_with_diagrams stats + length questions
    ∧ passage_based stats' ≤ passage_based stats + length questions.
Proof.
  induction questions as [|q questions IH]; intros i issues stats.
  - simpl. repeat split; lia.
  - cbn [validate_from].
    pose proof (validate_question_stats i q issues stats) as Hq.
    destruct (validate_question i q (issues, stats)) as [issues1 stats1].
    cbv zeta in Hq. cbn [snd] in Hq.
    destruct Hq as (H1 & H2 & H3 & H4 & H5 & H6 & H7).
    specialize (IH (S i) issues1 stats1). cbv zeta in IH.
    destruct IH as (I1 & I2 & I3 & I4 & I5 & I6 & I7).
    rewrite fmap_cons, flat_cons, count_specs_app.
    rewrite flat_cons, app_nil_r in H3. cbn [total_slides_of length].
    assert (length (get (slides (record q)) [])
            = match slides (record q) with Some sl => length sl | None => 0 end)
      as Hlen by (by destruct (slides (record q))).
    repeat split; lia.
Qed.

Lemma question_issues_elem (i : nat) (q : ParsedQuestion) (issue : string) :
  issue ∈ question_issues i q ↔ ∃ key, lacks_key q key ∧ issue = missing i key.
Proof.
  unfold question_issues, lacks_key. split.
  - intros H.
    destruct (question_number (record q)), (question_type q), (slides (record q));
      rewrite !elem_of_app, ?elem_of_nil, ?list_elem_of_singleton in H;
      repeat match goal with
             | H : _ ∨ _ |- _ => destruct H as [H|H]
             | H : False |- _ => destruct H
             end;
      subst;
      match goal with |- ∃ _, _ ∧ missing _ ?k = _ => exists k end;
      (split; [tauto | done]).
  - intros (key & Hl & ->).
    destruct (question_number (record q)), (question_type q), (slides (record q));
      rewrite !elem_of_app, ?elem_of_nil, ?list_elem_of_singleton;
      destruct Hl as [[-> H]|[[-> H]|[-> H]]]; try discriminate H; tauto.
Qed.

Lemma issues_from_elem (questions : list ParsedQuestion) (issue : string) :
  ∀ i, issue ∈ issues_from i questions
       ↔ ∃ j q key, questions !! j = Some q ∧ lacks_key q key
                    ∧ issue = missing (i + j) key.
Proof.
  induction questions as [|q questions IH]; intros i; simpl.
  - split; [by intros ?%elem_of_nil | by intros (j & ? & ? & ? & _)].
  - rewrite elem_of_app, IH, question_issues_elem. split.
    + intros [(key & Hl & ->)|(j & q' & key & Hj & Hl & ->)].
      * exists 0, q, key. by rewrite Nat.add_0_r.
      * exists (S j), q', key. split; [done|]. split; [done|]. f_equal. lia.
    + intros ([|j] & q' & key & Hj & Hl & ->).
      * left. simpl in Hj. injection Hj as <-. rewrite Nat.add_0_r. eauto.
      * right. exists j, q', key. split; [done|]. split; [done|]. f_equal. lia.
Qed.

Lemma issues_from_nil (questions : list ParsedQuestion) :
  ∀ i, issues_from i questions = [] ↔ Forall complete questions.
Proof.
  induction questions as [|q questions IH]; intros i; simpl.
  - split; [constructor | done].
  - rewrite Forall_cons, <- (IH (S i)). unfold question_issues, complete. split.
    + intros [Hq Hrest]%app_eq_nil. split; [|done].
      destruct (question_number (record q)), (question_type q),
        (slides (record q)); try discriminate Hq; eauto.
    + intros [([? Hn] & [? Ht] & [? Hs]) Hrest].
      by rewrite Hn, Ht, Hs, Hrest.
Qed.

End ValidationProperties.

Lemma validate_questions_parts (questions : list ParsedQuestion) :
  validate_questions questions
  = (bool_decide (length (issues_from 0 questions) = 0),
     issues_from 0 questions,
     (validate_from 0 questions
        ([], {| total_questions := length questions; total_slides := 0;
                questions_with_answers := 0; questions_with_options := 0;
                questions_with_tables := 0; questions_with_diagrams := 0;
                passage_based := 0 |})).2).
Proof.
  unfold validate_questions.
  pose proof (validate_from_issues questions 0 []
                {| total_questions := length questions; total_slides := 0;
                   questions_with_answers := 0; questions_with_options := 0;
                   questions_with_tables := 0; questions_with_diagrams := 0;
                   passage_based := 0 |}) as Hissues.
  destruct (validate_from 0 questions _) as [issues stats].
  simpl in Hissues. by subst issues.
Qed.

(** X15. [validate_questions] reports exactly the missing keys: an issue
    ["Question <i+1>: Missing <key>"] is in the list if and only if the
    question at position [i] lacks [key], one of [question_number],
    [question_type] and [slides]; and the input is valid if and only if
    every question has all three. *)
Theorem validate_questions_issues (questions : list ParsedQuestion) :
  ((validate_questions questions).1.1 = true ↔ Forall complete questions)
  ∧ ∀ issue : string,
      issue ∈ (validate_questions questions).1.2
      ↔ ∃ (i : nat) (q : ParsedQuestion) (key : string),
          questions !! i = Some q ∧ lacks_key q key
          ∧ issue = "Question " +:+ pretty (i + 1) +:+ ": Missing " +:+ key.
Proof.
  rewrite validate_questions_parts. cbn [fst snd]. split.
  - rewrite bool_decide_eq_true, length_zero_iff_nil. apply issues_from_nil.
  - intros issue. apply issues_from_elem.
Qed.

(** Scenario A, complete, before a record without number and type. *)
Lemma validate_questions_issues_witness :
  validate_questions [parsed_A; parsed_answers_only]
  = (false,
     ["Question 2: Missing question_number"; "Question 2: Missing question_type"],
     (validate_questions [parsed_A; parsed_answers_only]).2)
  ∧ "Question 2: Missing question_type"
    ∈ (validate_questions [parsed_A; parsed_answers_only]).1.2.
Proof.
  split; [by vm_compute|].
  apply (proj2 (validate_questions_issues [parsed_A; parsed_answers_only])).
  exists 1, parsed_answers_only, "question_type".
  split; [reflexivity|]. split; [|reflexivity]. right; left. done.
Defined.

(** X16. The statistics of [validate_questions] against the assembler:
    [total_slides] is the number of slides [main] announces with answers
    included; [questions_with_answers] counts answer slides, not
    questions, and is the number of answer slides [generate] makes, so the
    answer counter ends one above it; each of the other per-question
    counts is at most the number of questions. *)
Theorem validate_questions_stats
    (questions : list ParsedQuestion) (output_file : string) (fs : gmap string File) :
  let stats := (validate_questions questions).2 in
  total_questions stats = length questions
  ∧ total_slides stats = announced_slides true (record <$> questions)
  ∧ questions_with_answers stats
    = count_specs is_answer (flat (record <$> questions))
  ∧ questions_with_options stats ≤ length questions
  ∧ questions_with_tables stats ≤ length questions
  ∧ questions_with_diagrams stats ≤ length questions
  ∧ passage_based stats ≤ length questions
  ∧ (buildable (record <$> questions) →
     ∃ g' fs',
       generate (record <$> questions) output_file true init fs = Ok (g', fs')
       ∧ answer_counter g' = questions_with_answers stats + 1).
Proof.
  rewrite validate_questions_parts. cbn [snd]. cbv zeta.
  pose proof (validate_from_stats questions 0 []
                {| total_questions := length questions; total_slides := 0;
                   questions_with_answers := 0; questions_with_options := 0;
                   questions_with_tables := 0; questions_with_diagrams := 0;
                   passage_based := 0 |}) as Hstats.
  cbv zeta in Hstats. cbn [total_questions total_slides questions_with_answers
    questions_with_options questions_with_tables questions_with_diagrams
    passage_based] in Hstats.
  destruct Hstats as (H1 & H2 & H3 & H4 & H5 & H6 & H7).
  split; [done|]. split; [by rewrite H2|]. split; [by rewrite H3|].
  split; [lia|]. split; [lia|]. split; [lia|]. split; [lia|].
  intros Hb.
  destruct (generate_run (record <$> questions) output_file true init fs Hb)
    as (new & Hgen & _).
  eexists _, _. split; [exact Hgen|]. cbn [answer_counter init].
  rewrite count_numbered_true, H3. lia.
Qed.

(** Scenario A and the record with two answer slides: three answer slides
    in two questions. *)
Lemma validate_questions_stats_witness :
  questions_with_answers (validate_questions [parsed_A; parsed_answers_only]).2 = 3
  ∧ total_questions (validate_questions [parsed_A; parsed_answers_only]).2 = 2
  ∧ ∃ g' fs',
      generate [scenario_A; record parsed_answers_only] "PPTs/deck.pptx" true init ∅
      = Ok (g', fs')
      ∧ answer_counter g' = 4.
Proof.
  destruct (validate_questions_stats [parsed_A; parsed_answers_only]
              "PPTs/deck.pptx" ∅) as (Hq & _ & Ha & _ & _ & _ & _ & Hgen).
  split; [exact Ha|]. split; [exact Hq|].
  destruct Hgen as (g' & fs' & Hg & Hc); [solve_buildable|].
  exists g', fs'. split; [exact Hg|]. rewrite Hc, Ha. reflexivity.
Defined.

(** * Further properties: the label of a question slide *)

Section QuestionLabel.

Import Py.

(** The text block of a question slide opens with the number and a
    period. *)
Lemma full_question_head (question_data : Content) (question_number : string) :
  ∃ body, full_question question_data question_number
          = question_number +:+ ". " +:+ body.
Proof.
  unfold full_question, join.
  destruct (truthy (get (options question_data) []));
    destruct (nonempty (get (diagram_description question_data) ""));
    cbn [String.concat app]; rewrite ?append_assoc; eexists; reflexivity.
Qed.

(** A question slide that is built starts with the text box of its text
    block. *)
Lemma create_question_slide_text_box (question_data : Content)
    (question_number : string) (g g' : PPTXGenerator) :
  create_question_slide question_data question_number g = Ok g' →
  ∃ height shapes,
    g' = with_slide g
           (TextBox height
              (text_box_frame (full_question question_data question_number)
                 (Some FONT_SIZE_QUESTION) false LEFT) :: shapes).
Proof.
  unfold create_question_slide, create_blank_slide, add_text_box, with_slide.
  destruct (is_options_table (table question_data) (get (options question_data) []))
    as [is_options|e]; [|done].
  cbn [mbind result_bind get fst snd].
  destruct (has_table (table question_data) && negb is_options).
  - destruct (add_table_cases (table question_data)) as [[e He]|[Hnone|[t Ht]]];
      rewrite add_shape_last.
    + by rewrite He.
    + rewrite Hnone. cbn [mbind result_bind]. intros [= <-]. by eexists _, [].
    + rewrite Ht. cbn [mbind result_bind]. rewrite add_shape_last.
      intros [= <-]. by eexists _, [_].
  - rewrite add_shape_last. intros [= <-]. by eexists _, [].
Qed.

Lemma question_line_stripped (pre l : string) (c : ascii) :
  isspace c = false →
  ∃ t, strip (String c pre +:+ ". " +:+ l) = String c pre +:+ String "." t.
Proof.
  intros Hc. destruct (rstrip_nonspace "." (" " +:+ l) eq_refl) as [t Ht].
  exists t. unfold strip. rewrite append_cons. cbn [lstrip]. rewrite Hc.
  rewrite <- append_cons.
  change (". " +:+ l) with (String "." (" " +:+ l)).
  rewrite rstrip_append; rewrite Ht; done.
Qed.

End QuestionLabel.

(** X17. A question slide that is built starts with a text box.  When the
    question number is [Q] and digits, its first paragraph opens with the
    number and its period as one bold run; under the number ["Q?"], which
    [generate] uses for a record without [question_number], the first
    line is one run at normal weight, ["Q?. "] included. *)
Theorem question_slide_label
    (question_data : Content) (question_number : string) (g g' : PPTXGenerator) :
  create_question_slide question_data question_number g = Ok g' →
  ∃ (height : Height) (p : Paragraph) (pars : list Paragraph) (shapes : list Shape),
    g' = with_slide g (TextBox height (p :: pars) :: shapes)
    ∧ (∀ digits, question_number = "Q" +:+ digits → Py.isdigit digits = true →
         ∃ sep tail,
           runs p = label_run (question_number +:+ sep) (Some FONT_SIZE_QUESTION) :: tail
           ∧ (sep = ". " ∨ sep = "."))
    ∧ (question_number = "Q?" →
       ∃ line, runs p = [body_run ("Q?. " +:+ line) (Some FONT_SIZE_QUESTION) false]).
Proof.
  intros Hbuilt.
  destruct (create_question_slide_text_box _ _ _ _ Hbuilt) as (height & shapes & ->).
  destruct (full_question_head question_data question_number) as [body Hbody].
  rewrite <- append_assoc in Hbody. rewrite Hbody, text_box_frame_lines.
  assert (∀ prefix, Py.count Py.newline prefix = 0 →
            ∃ l ls, Py.split Py.newline (prefix +:+ body) = (prefix +:+ l) :: ls)
    as Hfirst.
  { intros prefix Hp.
    destruct (split_append_head Py.newline prefix body Hp) as (l & ls & _ & H).
    eauto. }
  destruct (Py.split Py.newline ((question_number +:+ ". ") +:+ body))
    as [|line0 lines] eqn:Hsplit; [by apply split_not_nil in Hsplit|].
  rewrite imap_cons. eexists height, _, _, shapes. split; [reflexivity|].
  cbn [runs format_paragraph new_paragraph app]. split.
  - intros digits -> Hd.
    destruct (Hfirst (("Q" +:+ digits) +:+ ". ")) as (l & ls & Hl).
    { apply andb_prop in Hd as [_ Hd].
      rewrite !count_append, (digits_no_newline _ Hd). reflexivity. }
    rewrite Hsplit in Hl. injection Hl as -> _.
    destruct (question_line_stripped digits l "Q" eq_refl) as [t Ht].
    rewrite <- append_assoc in Ht.
    pose proof (numbered_line_runs ((("Q" +:+ digits) +:+ ". ") +:+ l) "Q" digits
                  (String "." t) (Some FONT_SIZE_QUESTION) false
                  (or_introl eq_refl) Hd eq_refl Ht) as Hruns.
    cbv zeta in Hruns. rewrite Hruns. unfold label_run.
    destruct (Py.nonempty _); [by eexists ". ", _; split; [|left]|].
    destruct (Py.startswith _ _);
      [by eexists ".", _; split; [|right] | by eexists ". ", _; split; [|left]].
  - intros ->. destruct (Hfirst ("Q?" +:+ ". ") eq_refl) as (l & ls & Hl).
    rewrite Hsplit in Hl. injection Hl as -> _.
    exists l. destruct (question_line_stripped "?" l "Q" eq_refl) as [t Ht].
    unfold line_runs, body_run.
    change (("Q?" +:+ ". ") +:+ l) with ("Q?" +:+ ". " +:+ l). rewrite Ht.
    reflexivity.
Qed.

(** The question of scenario A under the numbers ["Q12"] and ["Q?"]. *)
Lemma question_slide_label_witness :
  (∃ g' p pars,
     create_question_slide scenario_A_question "Q12" init = Ok g'
     ∧ prs g' = [[TextBox TEXTBOX_HEIGHT (p :: pars)]]
     ∧ runs p = [label_run "Q12. " (Some 25); body_run "What is 2+2?" (Some 25) false])
  ∧ ∃ g' p pars,
      create_question_slide scenario_A_question "Q?" init = Ok g'
      ∧ prs g' = [[TextBox TEXTBOX_HEIGHT (p :: pars)]]
      ∧ runs p = [body_run "Q?. What is 2+2?" (Some 25) false].
Proof.
  split.
  - destruct (create_question_slide scenario_A_question "Q12" init) as [g'|e] eqn:H;
      [|vm_compute in H; discriminate H].
    destruct (question_slide_label scenario_A_question "Q12" init g' H)
      as (height & p & pars & shapes & -> & _ & _).
    vm_compute in H. injection H as <- <- <- <-.
    eexists _, _, _. split; [reflexivity|]. split; reflexivity.
  - destruct (create_question_slide scenario_A_question "Q?" init) as [g'|e] eqn:H;
      [|vm_compute in H; discriminate H].
    destruct (question_slide_label scenario_A_question "Q?" init g' H)
      as (height & p & pars & shapes & -> & _ & _).
    vm_compute in H. injection H as <- <- <- <-.
    eexists _, _, _. split; [reflexivity|]. split; reflexivity.
Defined.
